(** * sst/extension: the telemetry listener, the invocation loop and the log sink

    A shallow embedding of [server/listener.go] and of [main.go] (with the
    types of [api/extension/client.go] that [main] reads), and the properties
    of the specification proved or refuted on it.

    What the Go code takes from libraries is a parameter of the embedding:
    [json.Unmarshal] is a class indexed by the type decoded into, the [%v]
    verb of [fmt] on a [float64] is a function, the CloudWatch Logs client
    and the clock are operations on an abstract world.  The second half of
    the file gives one instance of each, a JSON decoder over byte strings
    among them, so that every definition can be run on concrete telemetry. *)

From Stdlib Require Import String Ascii List ZArith Bool Lia DecimalString.
Import ListNotations.
Open Scope string_scope.

(** ** Go values shared by the packages *)

(** A Go [error] value; [None : option error] is [nil].  The constructors are
    the dynamic types the program tells apart. *)
Inductive error : Type :=
| SyntaxError (msg : string)               (* *json.SyntaxError *)
| UnmarshalTypeError (value : string)      (* *json.UnmarshalTypeError *)
| APIError (code : string)                 (* a smithy.APIError and its ErrorCode() *)
| OtherError (msg : string).

(** What a Go function body can come to. *)
Inductive outcome (A : Type) : Type :=
| Done (a : A)              (* ran to its end *)
| Panic (msg : string)      (* a run-time panic *)
| Blocked                   (* parked for good on a channel operation *)
| OutOfFuel.                (* a loop still running when the fuel given ran out *)
Arguments Done {A} a.
Arguments Panic {A} msg.
Arguments Blocked {A}.
Arguments OutOfFuel {A}.

Definition bind {A B : Type} (m : outcome A) (k : A -> outcome B) : outcome B :=
  match m with
  | Done a => k a
  | Panic msg => Panic msg
  | Blocked => Blocked
  | OutOfFuel => OutOfFuel
  end.

Notation "x <- m ;; k" := (bind m (fun x => k))
  (at level 61, m at next level, right associativity).

Definition TAB : string := String (ascii_of_nat 9) "".
Definition LF : ascii := ascii_of_nat 10.
Definition DQUOTE : ascii := ascii_of_nat 34.

(** ** encoding/json *)
Module json.

  (** [json.RawMessage]: the bytes of one encoded value; [""] is the nil slice. *)
Definition RawMessage : Type := string.

  (** [json.Unmarshal(data, &v)] for a [v] of type [T] that holds its zero
      value: the value [v] holds afterwards, and the error returned. *)
Class Unmarshal (T : Type) : Type :=
    unmarshal : string -> T * option error.

End json.

(** ** Go channels *)
Module chan.

  (** A channel made by [make]: the values sent and not yet received, oldest
      first, and whether [close] was called.  A send that finds the buffer at
      its capacity parks the sender until the receiver has taken a value; that
      delays the send and does not change the order in which values enter, so
      [buf] is not cut at the capacity. *)
Record t (A : Type) : Type := { closed : bool; buf : list A }.
Arguments closed {A} _.
Arguments buf {A} _.

Definition make (A : Type) : t A := {| closed := false; buf := [] |}.

  (** [ch <- x].  [None] is the nil channel. *)
Definition send {A : Type} (ch : option (t A)) (x : A) : outcome (option (t A)) :=
    match ch with
    | None => Blocked
    | Some c =>
        if closed c then Panic "send on closed channel"
        else Done (Some {| closed := false; buf := buf c ++ [x] |})
    end.

  (** [close(ch)]. *)
Definition close {A : Type} (ch : option (t A)) : outcome (option (t A)) :=
    match ch with
    | None => Panic "close of nil channel"
    | Some c =>
        if closed c then Panic "close of closed channel"
        else Done (Some {| closed := true; buf := buf c |})
    end.

End chan.

(** ** api/extension/client.go: the types [main] reads *)
Module extension.

Definition EventType : Type := string.
Definition Invoke : EventType := "INVOKE".
Definition Shutdown : EventType := "SHUTDOWN".

Module Tracing.
Record t : Type := { Type_ : string; Value : string }.
End Tracing.

Module NextEventResponse.
Record t : Type := {
      EventType_ : EventType;
      DeadlineMs : Z;
      RequestID : string;
      InvokedFunctionArn : string;
      Tracing_ : Tracing.t
    }.
End NextEventResponse.

End extension.

(** ** server/listener.go *)
Module server.

Module UnknownEvent.
Record t : Type := {
      Time : string;
      Type_ : string;
      Record_ : json.RawMessage
    }.
End UnknownEvent.

Module PlatformInitStartEvent.
Record t : Type := {
      InitializationType : string;
      Phase : string;
      RuntimeVersion : string;
      RuntimeVersionArn : string
    }.
End PlatformInitStartEvent.

Module PlatformStartEvent.
Record t : Type := { RequestID : string; Version : string }.
End PlatformStartEvent.

Module PlatformRuntimeDone.
Record Metrics_t (float64 : Type) : Type := { DurationMs : float64 }.
Arguments DurationMs {float64} _.
Record t (float64 : Type) : Type := {
      RequestID : string;
      Metrics : Metrics_t float64
    }.
Arguments RequestID {float64} _.
Arguments Metrics {float64} _.
End PlatformRuntimeDone.

Module PlatformReportEvent.
Record Metrics_t (float64 : Type) : Type := {
      DurationMs : float64;
      BilledDurationMs : Z;
      MemorySizeMb : Z;
      MaxMemoryUsedMb : Z;
      InitDurationMs : Z
    }.
Record t (float64 : Type) : Type := {
      RequestID : string;
      Metrics : Metrics_t float64
    }.
End PlatformReportEvent.

Definition FunctionEvent : Type := string.

  (** The dynamic types [Start] stores in [Event.Record]. *)
Inductive Record_ (float64 : Type) : Type :=
  | InitStart (v : PlatformInitStartEvent.t)
  | Function (v : FunctionEvent)
  | Start_ (v : PlatformStartEvent.t)
  | Report (v : PlatformReportEvent.t float64)
  | RuntimeDone (v : PlatformRuntimeDone.t float64).
Arguments InitStart {float64} _.
Arguments Function {float64} _.
Arguments Start_ {float64} _.
Arguments Report {float64} _.
Arguments RuntimeDone {float64} _.

Module Event.
Record t (float64 : Type) : Type := {
      Time : string;
      Type_ : string;
Record' : Record_ float64
    }.
Arguments Time {float64} _.
Arguments Type_ {float64} _.
Arguments Record' {float64} _.
End Event.

  (** [*http.Server], as far as the listener looks at it. *)
Module http_Server.
Record t : Type := { Addr : string }.
End http_Server.

Definition defaultListenerPort : string := "4323".

  (** The package variables [httpServer] and [Events]; [None] is [nil]. *)
Record Globals (float64 : Type) : Type := {
    httpServer : option http_Server.t;
    Events : option (chan.t (Event.t float64))
  }.
Arguments httpServer {float64} _.
Arguments Events {float64} _.

Section Listener.
Context {float64 : Type}.
Context {U_slice : json.Unmarshal (list UnknownEvent.t)}
            {U_initStart : json.Unmarshal PlatformInitStartEvent.t}
            {U_string : json.Unmarshal string}
            {U_start : json.Unmarshal PlatformStartEvent.t}
            {U_report : json.Unmarshal (PlatformReportEvent.t float64)}
            {U_runtimeDone : json.Unmarshal (PlatformRuntimeDone.t float64)}.

    (** What [log.Println] wrote, one entry a call, operands joined by a
        space (the logger's prefix and the newline left out). *)
Definition Log : Type := list string.

Definition Println3 (a b c : string) : string := a ++ " " ++ b ++ " " ++ c.

    (** The state a request handler runs on. *)
Record HState : Type := {
      events : option (chan.t (Event.t float64));
      log : Log
    }.

Definition push (st : HState) (e : Event.t float64) : outcome HState :=
      ch <- chan.send (events st) e ;;
      Done {| events := ch; log := log st |}.

Definition println (st : HState) (line : string) : HState :=
      {| events := events st; log := (log st ++ [line])%list |}.

    (** The body of [for _, evt := range slice]: the [switch evt.Type]. *)
Definition dispatch (st : HState) (evt : UnknownEvent.t) : outcome HState :=
      let ty := UnknownEvent.Type_ evt in
      let mk r := {| Event.Time := UnknownEvent.Time evt;
                     Event.Type_ := ty;
                     Event.Record' := r |} in
      if ty =? "platform.initStart" then
        let specific : PlatformInitStartEvent.t :=
          fst (json.unmarshal (UnknownEvent.Record_ evt)) in
        push st (mk (InitStart specific))
      else if ty =? "function" then
        let specific : string := fst (json.unmarshal (UnknownEvent.Record_ evt)) in
        push st (mk (Function specific))
      else if ty =? "platform.start" then
        let specific : PlatformStartEvent.t :=
          fst (json.unmarshal (UnknownEvent.Record_ evt)) in
        push st (mk (Start_ specific))
      else if ty =? "platform.report" then
        let specific : PlatformReportEvent.t float64 :=
          fst (json.unmarshal (UnknownEvent.Record_ evt)) in
        push st (mk (Report specific))
      else if ty =? "platform.runtimeDone" then
        let st := println st (UnknownEvent.Record_ evt) in
        let specific : PlatformRuntimeDone.t float64 :=
          fst (json.unmarshal (UnknownEvent.Record_ evt)) in
        push st (mk (RuntimeDone specific))
      else if (ty =? "platform.extension") || (ty =? "platform.initReport")
              || (ty =? "platform.initRuntimeDone")
              || (ty =? "platform.telemetrySubscription") then
        Done st
      else
        Done (println st (Println3 "unknown event type" ty (UnknownEvent.Record_ evt))).

Fixpoint range_slice (slice : list UnknownEvent.t) (st : HState) : outcome HState :=
      match slice with
      | [] => Done st
      | evt :: rest => st' <- dispatch st evt ;; range_slice rest st'
      end.

    (** The function [Start] registers on ["/"]; [body] is what
        [io.ReadAll(r.Body)] returned.  The text of an error printed is left
        out of the log, here and in [Shutdown]. *)
Definition handler (body : string * option error) (st : HState) : outcome HState :=
      match snd body with
      | Some _ =>
          Done (println st "[listener:http_handler] Error reading body:")
      | None =>
          let slice : list UnknownEvent.t := fst (json.unmarshal (fst body)) in
          range_slice slice st
      end.

    (** [Start], up to the goroutine that serves: the two package variables
        are set before the handler is registered. *)
Definition Start (g : Globals float64) : Globals float64 * string :=
      let address := "sandbox:" ++ defaultListenerPort in
      ({| httpServer := Some {| http_Server.Addr := address |};
          Events := Some (chan.make (Event.t float64)) |},
       "http://" ++ address ++ "/").

    (** [Shutdown]; [err] is what [httpServer.Shutdown(ctx)] returns when it
        is called.  The returned log holds the line printed, if any. *)
Definition Shutdown (err : option error) (g : Globals float64)
      : outcome (Globals float64 * Log) :=
      match httpServer g with
      | Some srv =>
          ch <- chan.close (Events g) ;;
          match err with
          | Some _ =>
              Done ({| httpServer := Some srv; Events := ch |},
                    ["[listener:Shutdown] Failed to shutdown http server gracefully:"])
          | None =>
              Done ({| httpServer := None; Events := ch |}, [])
          end
      | None => Done (g, [])
      end.

End Listener.

End server.


(** ** regexp: the one pattern [main] compiles *)
Module regexp.

Definition marker : string := "::sst::".

(** [strip p s]: what follows [p] in [s] when [s] starts with [p]. *)
Fixpoint strip (p s : string) : option string :=
  match p, s with
  | EmptyString, _ => Some s
  | String a p', String b s' => if Ascii.eqb a b then strip p' s' else None
  | String _ _, EmptyString => None
  end.

(** The longest prefix free of a line feed: what a greedy [.+] takes, since
    [.] matches every character but the line feed. *)
Fixpoint dots (s : string) : string :=
  match s with
  | EmptyString => EmptyString
  | String c s' => if Ascii.eqb c LF then EmptyString else String c (dots s')
  end.

(** [regexp.MustCompile("::sst::(.+)").FindStringSubmatch(s)]: the leftmost
    match and its group, or the nil slice. *)
Fixpoint FindStringSubmatch (s : string) : list string :=
  match s with
  | EmptyString => []
  | String _ s' =>
      match strip marker s with
      | Some rest =>
          match dots rest with
          | EmptyString => FindStringSubmatch s'
          | group => [marker ++ group; group]
          end
      | None => FindStringSubmatch s'
      end
  end.

End regexp.

(** ** fmt.Sprintf, on the verbs the program uses *)
Module fmt.

Section Sprintf.
Context {float64 : Type}.
(** The [%v] verb on a [float64]. *)
Variable FormatFloat : float64 -> string.

Inductive operand : Type :=
| OString (s : string)
| OFloat64 (f : float64)
| OInt (n : Z).

Definition format_operand (o : operand) : string :=
  match o with
  | OString s => s
  | OFloat64 f => FormatFloat f
  | OInt n => DecimalString.NilZero.string_of_int (Z.to_int n)
  end.

(** [%s] and [%v] print the next operand (every operand the program hands to
    [%s] is a string); a verb with no operand left prints as Go's
    [%!v(MISSING)].  Every call of the program has one operand a verb. *)
Fixpoint Sprintf (format : string) (a : list operand) : string :=
  match format with
  | String "%"%char (String c rest) =>
      if Ascii.eqb c "s"%char || Ascii.eqb c "v"%char then
        match a with
        | o :: a' => format_operand o ++ Sprintf rest a'
        | [] => "%!" ++ String c "(MISSING)" ++ Sprintf rest []
        end
      else String "%"%char (String c (Sprintf rest a))
  | String c rest => String c (Sprintf rest a)
  | EmptyString => EmptyString
  end.

End Sprintf.
Arguments OString {float64} s.
Arguments OInt {float64} n.
Arguments OFloat64 {float64} f.

End fmt.

(** ** The CloudWatch Logs client and the clock, as [main] calls them *)
Module cloudwatchlogs.

Module InputLogEvent.
Record t : Type := { Message : string; Timestamp : Z }.
End InputLogEvent.

Module PutLogEventsInput.
Record t : Type := {
  LogGroupName : string;
  LogStreamName : string;
  LogEvents : list InputLogEvent.t
}.
End PutLogEventsInput.

Module CreateLogGroupInput.
Record t : Type := { LogGroupName : string }.
End CreateLogGroupInput.

Module CreateLogStreamInput.
Record t : Type := { LogGroupName : string; LogStreamName : string }.
End CreateLogStreamInput.

(** The three operations of [*cloudwatchlogs.Client] the program calls, on a
    world [W]: the world after the call and the error returned. *)
Class Client (W : Type) : Type := {
  PutLogEvents : PutLogEventsInput.t -> W -> W * option error;
  CreateLogGroup : CreateLogGroupInput.t -> W -> W * option error;
  CreateLogStream : CreateLogStreamInput.t -> W -> W * option error
}.

End cloudwatchlogs.

Module time.

(** [time.Now().UnixNano()]: reading the clock may change the world. *)
Class Clock (W : Type) : Type :=
  UnixNano : W -> Z * W.

(** [int64(time.Millisecond)]. *)
Definition Millisecond : Z := 1000000.

End time.

(** ** main.go *)
Module main.

Module Action.
Record t : Type := { Action : string; Properties : json.RawMessage }.
End Action.

Module LogSplitAction.
Record t : Type := { LogGroupName : string }.
End LogSplitAction.

(** The calls made on the CloudWatch Logs client, oldest first. *)
Inductive Call : Type :=
| CallPutLogEvents (input : cloudwatchlogs.PutLogEventsInput.t)
| CallCreateLogGroup (input : cloudwatchlogs.CreateLogGroupInput.t)
| CallCreateLogStream (input : cloudwatchlogs.CreateLogStreamInput.t).

(** The two variables [main] declares before its loop. *)
Record Locals : Type := { buffer : list string; logGroupName : string }.

(** How one turn of [main]'s outer [for] ends. *)
Inductive Control : Type :=
| Return_      (* main returns: the process exits *)
| Again.       (* the next turn of the loop *)

Section Main.
Context {float64 : Type}.
Variable FormatFloat : float64 -> string.
Context {U_action : json.Unmarshal Action.t}
        {U_logSplit : json.Unmarshal LogSplitAction.t}.
Context {W : Type} {client : cloudwatchlogs.Client W} {clock : time.Clock W}.
(** [os.Getenv], and the [streamName] computed once before the loop. *)
Variable Getenv : string -> string.
Variable streamName : string.

Local Abbreviation Sprintf := (fmt.Sprintf FormatFloat).
Local Abbreviation OString := (@fmt.OString float64).

Definition append (l : Locals) (line : string) : Locals :=
  {| buffer := (buffer l ++ [line])%list; logGroupName := logGroupName l |}.

(** [case server.FunctionEvent]; each [continue] and the end of the case lead
    to the next turn of the range loop with the locals returned. *)
Definition case_FunctionEvent (v : server.FunctionEvent) (l : Locals) : Locals :=
  let matches := regexp.FindStringSubmatch v in
  if (1 <? length matches)%nat then
    let '(action, err) := (json.unmarshal (nth 1 matches "") : Action.t * option error) in
    match err with
    | Some _ => l
    | None =>
        if negb (Action.Action action =? "log.split") then l
        else
          let '(logSplitAction, err) :=
            (json.unmarshal (Action.Properties action) : LogSplitAction.t * option error) in
          match err with
          | Some _ => l
          | None =>
              {| buffer := buffer l;
                 logGroupName := LogSplitAction.LogGroupName logSplitAction |}
          end
    end
  else append l v.

(** The two lines [case server.PlatformRuntimeDone] appends. *)
Definition END_line (v : server.PlatformRuntimeDone.t float64) : string :=
  Sprintf "END RequestId: %s" [OString (server.PlatformRuntimeDone.RequestID v)].

Definition REPORT_line (v : server.PlatformRuntimeDone.t float64) : string :=
  let d := server.PlatformRuntimeDone.DurationMs (server.PlatformRuntimeDone.Metrics v) in
  Sprintf ("REPORT RequestId: %s" ++ TAB ++ "Duration: %v ms" ++ TAB
           ++ "Billed Duration: %v ms" ++ TAB ++ "Memory Size: %v MB" ++ TAB
           ++ "Max Memory Used: %v MB")
    [OString (server.PlatformRuntimeDone.RequestID v);
     fmt.OFloat64 d; fmt.OFloat64 d;
     OString (Getenv "AWS_LAMBDA_FUNCTION_MEMORY_SIZE");
     fmt.OInt 0].

(** [for _, message := range buffer]: one reading of the clock a message. *)
Fixpoint LogEvents_of (buffer : list string) (w : W)
  : list cloudwatchlogs.InputLogEvent.t * W :=
  match buffer with
  | [] => ([], w)
  | message :: rest =>
      let '(ns, w1) := time.UnixNano w in
      let '(evs, w2) := LogEvents_of rest w1 in
      ({| cloudwatchlogs.InputLogEvent.Message := message;
          cloudwatchlogs.InputLogEvent.Timestamp := Z.quot ns time.Millisecond |} :: evs,
       w2)
  end.

Definition is_ResourceNotFound (err : option error) : bool :=
  match err with
  | Some (APIError code) => code =? "ResourceNotFoundException"
  | _ => false
  end.

(** The inner [for] around [client.PutLogEvents]: the calls it makes and the
    world it leaves.  The loop has no bound of its own; [fuel] bounds the
    number of puts tried. *)
Fixpoint put_loop (fuel : nat) (put : cloudwatchlogs.PutLogEventsInput.t)
  (logGroupName : string) (w : W) : outcome (W * list Call) :=
  match fuel with
  | O => OutOfFuel
  | S fuel' =>
      let '(w1, err) := cloudwatchlogs.PutLogEvents put w in
      if is_ResourceNotFound err then
        let group := {| cloudwatchlogs.CreateLogGroupInput.LogGroupName := logGroupName |} in
        let stream :=
          {| cloudwatchlogs.CreateLogStreamInput.LogGroupName := logGroupName;
             cloudwatchlogs.CreateLogStreamInput.LogStreamName := streamName |} in
        let '(w2, _) := cloudwatchlogs.CreateLogGroup group w1 in
        let '(w3, _) := cloudwatchlogs.CreateLogStream stream w2 in
        r <- put_loop fuel' put logGroupName w3 ;;
        Done (fst r, CallPutLogEvents put :: CallCreateLogGroup group
                       :: CallCreateLogStream stream :: snd r)
      else Done (w1, [CallPutLogEvents put])
  end.

(** [case server.PlatformRuntimeDone], first part: the two lines appended and
    the input of [PutLogEvents] built from the buffer. *)
Definition flush_input (v : server.PlatformRuntimeDone.t float64) (l : Locals) (w : W)
  : Locals * cloudwatchlogs.PutLogEventsInput.t * W :=
  let l := append l (END_line v) in
  let l := append l (REPORT_line v) in
  let '(evs, w1) := LogEvents_of (buffer l) w in
  (l,
   {| cloudwatchlogs.PutLogEventsInput.LogGroupName := logGroupName l;
      cloudwatchlogs.PutLogEventsInput.LogStreamName := streamName;
      cloudwatchlogs.PutLogEventsInput.LogEvents := evs |},
   w1).

(** [case server.PlatformRuntimeDone], up to [break outerloop]. *)
Definition case_PlatformRuntimeDone (fuel : nat) (v : server.PlatformRuntimeDone.t float64)
  (l : Locals) (w : W) : outcome (Locals * W * list Call) :=
  let '(l', put, w1) := flush_input v l w in
  r <- put_loop fuel put (logGroupName l') w1 ;;
  Done (l', fst r, snd r).

(** The cases of the type switch that lead to the next turn of the range
    loop; [PlatformReportEvent] has no case. *)
Definition accumulate (r : server.Record_ float64) (l : Locals) : Locals :=
  match r with
  | server.InitStart v =>
      append l (Sprintf "INIT_START Runtime Version: %s Runtime Version ARN: %s"
                  [OString (server.PlatformInitStartEvent.RuntimeVersion v);
                   OString (server.PlatformInitStartEvent.RuntimeVersionArn v)])
  | server.Start_ v =>
      append l (Sprintf "START RequestId: %s Version: %s"
                  [OString (server.PlatformStartEvent.RequestID v);
                   OString (server.PlatformStartEvent.Version v)])
  | server.Function v => case_FunctionEvent v l
  | server.Report _ => l
  | server.RuntimeDone _ => l
  end.

(** What [for evt := range server.Events] leaves behind. *)
Record Ranged : Type := {
  rest : list (server.Event.t float64);   (* still in the channel *)
  locals : Locals;
  world : W;
  calls : list Call
}.

(** [outerloop: for evt := range server.Events], on the values [q] waiting in
    the channel: it ends at [break outerloop], or when the channel is closed
    and empty; on an open and empty channel it stays parked. *)
Fixpoint range_Events (fuel : nat) (closed : bool) (q : list (server.Event.t float64))
  (l : Locals) (w : W) : outcome Ranged :=
  match q with
  | [] =>
      if closed then Done {| rest := []; locals := l; world := w; calls := [] |}
      else Blocked
  | evt :: q' =>
      match server.Event.Record' evt with
      | server.RuntimeDone v =>
          r <- case_PlatformRuntimeDone fuel v l w ;;
          Done {| rest := q'; locals := fst (fst r); world := snd (fst r); calls := snd r |}
      | r => range_Events fuel closed q' (accumulate r l) w
      end
  end.

(** The state one turn of the outer [for] runs on. *)
Record State : Type := {
  globals : server.Globals float64;
  vars : Locals;
  env : W;
  trace : list Call
}.

(** One turn of the outer [for]: [done] tells whether [ctx.Done()] is ready,
    [next] is what [extension.EventNext] returns. *)
Definition turn (fuel : nat) (done : bool)
  (next : extension.NextEventResponse.t * option error) (st : State)
  : outcome (State * Control) :=
  if done then Done (st, Return_)
  else
    match snd next with
    | Some _ => Done (st, Return_)
    | None =>
        let res := fst next in
        let l := {| buffer := []; logGroupName := "" |} in
        let st := {| globals := globals st; vars := l; env := env st; trace := trace st |} in
        if extension.NextEventResponse.EventType_ res =? extension.Invoke then
          match server.Events (globals st) with
          | None => Blocked
          | Some ch =>
              r <- range_Events fuel (chan.closed ch) (chan.buf ch) l (env st) ;;
              Done ({| globals :=
                         {| server.httpServer := server.httpServer (globals st);
                            server.Events :=
                              Some {| chan.closed := chan.closed ch; chan.buf := rest r |} |};
                       vars := locals r;
                       env := world r;
                       trace := (trace st ++ calls r)%list |},
                    Again)
          end
        else if extension.NextEventResponse.EventType_ res =? extension.Shutdown then
          Done (st, Return_)
        else Done (st, Again)
    end.

End Main.

End main.

(** ** An instance of [json.Unmarshal]: a decoder over the bytes of a text

    The decoder follows encoding/json on what the program decodes: a text is
    checked whole before anything is stored, a [null] stores nothing, a member
    whose name matches no field is skipped, a value of the wrong kind leaves
    its target as it was and the first such error is the one returned, a
    member met twice is stored twice.  It leaves out: the replacement of
    ill-formed UTF-8 inside strings, the folding of letters outside ASCII in
    member names, and the limit on nesting. *)
Module jsontext.

#[local] Set Warnings "-register-all".
Inductive value : Type :=
| Null
| Bool (b : bool)
| Number (literal : string)
| Str (s : string)
| Array (elems : list value)
| Object (members : list (string * (json.RawMessage * value))).

Definition is_space (c : ascii) : bool :=
  let n := nat_of_ascii c in
  ((n =? 32) || (n =? 9) || (n =? 10) || (n =? 13))%nat.

Fixpoint skip_space (s : string) : string :=
  match s with
  | String c r => if is_space c then skip_space r else s
  | EmptyString => s
  end.

Definition is_digit (c : ascii) : bool :=
  let n := nat_of_ascii c in ((48 <=? n) && (n <=? 57))%nat.

(** The digits [s] starts with, and what follows them. *)
Fixpoint digits (s : string) : string * string :=
  match s with
  | String c r =>
      if is_digit c then let '(ds, r') := digits r in (String c ds, r') else (EmptyString, s)
  | EmptyString => (EmptyString, s)
  end.

Definition scan_sign (minus_only : bool) (s : string) : string * string :=
  match s with
  | String c r =>
      if Ascii.eqb c "-"%char || (negb minus_only && Ascii.eqb c "+"%char)
      then (String c EmptyString, r) else (EmptyString, s)
  | EmptyString => (EmptyString, s)
  end.

(** A number literal at the head of [s], and what follows it. *)
Definition scan_number (s : string) : option (string * string) :=
  let '(sign, s1) := scan_sign true s in
  match s1 with
  | String c r =>
      if is_digit c then
        let '(int, s2) :=
          if Ascii.eqb c "0"%char then (String c EmptyString, r)
          else let '(ds, r') := digits r in (String c ds, r') in
        let frac :=
          match s2 with
          | String "."%char r2 =>
              let '(ds, r3) := digits r2 in
              match ds with
              | EmptyString => None
              | _ => Some (String "."%char ds, r3)
              end
          | _ => Some (EmptyString, s2)
          end in
        match frac with
        | None => None
        | Some (fr, s3) =>
            match s3 with
            | String e r4 =>
                if Ascii.eqb e "e"%char || Ascii.eqb e "E"%char then
                  let '(sg, r5) := scan_sign false r4 in
                  let '(ds, r6) := digits r5 in
                  match ds with
                  | EmptyString => None
                  | _ => Some (sign ++ int ++ fr ++ String e (sg ++ ds), r6)
                  end
                else Some (sign ++ int ++ fr, s3)
            | EmptyString => Some (sign ++ int ++ fr, s3)
            end
        end
      else None
  | EmptyString => None
  end.

Definition hex_digit (c : ascii) : option N :=
  let n := N_of_ascii c in
  if ((48 <=? n) && (n <=? 57))%N then Some (n - 48)%N
  else if ((97 <=? n) && (n <=? 102))%N then Some (n - 87)%N
  else if ((65 <=? n) && (n <=? 70))%N then Some (n - 55)%N
  else None.

(** [getu4]: the number a [\uXXXX] escape holds, [s] standing after the [u]. *)
Definition getu4 (s : string) : option (N * string) :=
  match s with
  | String a (String b (String c (String d r))) =>
      match hex_digit a, hex_digit b, hex_digit c, hex_digit d with
      | Some x, Some y, Some z, Some t => Some (x * 4096 + y * 256 + z * 16 + t, r)%N
      | _, _, _, _ => None
      end
  | _ => None
  end.

Definition byte (n : N) : ascii := ascii_of_N n.

(** The UTF-8 encoding of a code point. *)
Definition utf8 (r : N) : string :=
  if (r <? 128)%N then String (byte r) EmptyString
  else if (r <? 2048)%N then
    String (byte (192 + r / 64)) (String (byte (128 + r mod 64)) EmptyString)
  else if (r <? 65536)%N then
    String (byte (224 + r / 4096))
      (String (byte (128 + (r / 64) mod 64)) (String (byte (128 + r mod 64)) EmptyString))
  else
    String (byte (240 + r / 262144))
      (String (byte (128 + (r / 4096) mod 64))
         (String (byte (128 + (r / 64) mod 64)) (String (byte (128 + r mod 64)) EmptyString))).

Definition is_surrogate (r : N) : bool := ((55296 <=? r) && (r <? 57344))%N.

Definition simple_escape (c : ascii) : option ascii :=
  if Ascii.eqb c DQUOTE then Some c
  else if Ascii.eqb c "\"%char then Some c
  else if Ascii.eqb c "/"%char then Some c
  else if Ascii.eqb c "b"%char then Some (ascii_of_nat 8)
  else if Ascii.eqb c "f"%char then Some (ascii_of_nat 12)
  else if Ascii.eqb c "n"%char then Some (ascii_of_nat 10)
  else if Ascii.eqb c "r"%char then Some (ascii_of_nat 13)
  else if Ascii.eqb c "t"%char then Some (ascii_of_nat 9)
  else None.

(** A string literal, [s] standing after its opening quote: the string it
    denotes and what follows its closing quote. *)
Fixpoint scan_string (fuel : nat) (s : string) : option (string * string) :=
  match fuel with
  | O => None
  | S fuel' =>
      let more (head : string) (r : string) :=
        match scan_string fuel' r with
        | Some (tail, r') => Some (head ++ tail, r')
        | None => None
        end in
      match s with
      | EmptyString => None
      | String c r =>
          if Ascii.eqb c DQUOTE then Some (EmptyString, r)
          else if Ascii.eqb c "\"%char then
            match r with
            | EmptyString => None
            | String e r1 =>
                match simple_escape e with
                | Some ch => more (String ch EmptyString) r1
                | None =>
                    if Ascii.eqb e "u"%char then
                      match getu4 r1 with
                      | None => None
                      | Some (rr, r2) =>
                          if is_surrogate rr then
                            let pair :=
                              match r2 with
                              | String "\"%char (String "u"%char r3) =>
                                  match getu4 r3 with
                                  | Some (rr1, r4) =>
                                      if ((rr <? 56320) && (56320 <=? rr1) && (rr1 <? 57344))%N
                                      then Some (65536 + (rr - 55296) * 1024 + (rr1 - 56320), r4)%N
                                      else None
                                  | None => None
                                  end
                              | _ => None
                              end in
                            match pair with
                            | Some (dec, r4) => more (utf8 dec) r4
                            | None => more (utf8 65533) r2
                            end
                          else more (utf8 rr) r2
                      end
                    else None
                end
            end
          else if (nat_of_ascii c <? 32)%nat then None
          else more (String c EmptyString) r
      end
  end.

(** The first [n] bytes of [s]. *)
Fixpoint take (n : nat) (s : string) : string :=
  match n, s with
  | S n', String c r => String c (take n' r)
  | _, _ => EmptyString
  end.

(** The text [s] lost when [r] is what is left of it. *)
Definition consumed (s r : string) : string := take (String.length s - String.length r) s.

(** One value at the head of [s], after white space, and what follows it. *)
Fixpoint parse_value (fuel : nat) (s : string) : option (value * string) :=
  match fuel with
  | O => None
  | S fuel' =>
      match skip_space s with
      | EmptyString => None
      | String c r as s0 =>
          if Ascii.eqb c "n"%char then option_map (pair Null) (regexp.strip "ull" r)
          else if Ascii.eqb c "t"%char then option_map (pair (Bool true)) (regexp.strip "rue" r)
          else if Ascii.eqb c "f"%char then option_map (pair (Bool false)) (regexp.strip "alse" r)
          else if Ascii.eqb c DQUOTE then
            match scan_string (S (String.length r)) r with
            | Some (str, r') => Some (Str str, r')
            | None => None
            end
          else if Ascii.eqb c "["%char then
            match skip_space r with
            | String "]"%char r' => Some (Array [], r')
            | _ =>
                match parse_elems fuel' r with
                | Some (vs, r') => Some (Array vs, r')
                | None => None
                end
            end
          else if Ascii.eqb c "{"%char then
            match skip_space r with
            | String "}"%char r' => Some (Object [], r')
            | _ =>
                match parse_members fuel' r with
                | Some (ms, r') => Some (Object ms, r')
                | None => None
                end
            end
          else
            match scan_number s0 with
            | Some (lit, r') => Some (Number lit, r')
            | None => None
            end
      end
  end
with parse_elems (fuel : nat) (s : string) : option (list value * string) :=
  match fuel with
  | O => None
  | S fuel' =>
      match parse_value fuel' s with
      | Some (v, r) =>
          match skip_space r with
          | String c r' =>
              if Ascii.eqb c "]"%char then Some ([v], r')
              else if Ascii.eqb c ","%char then
                match parse_elems fuel' r' with
                | Some (vs, r'') => Some (v :: vs, r'')
                | None => None
                end
              else None
          | EmptyString => None
          end
      | None => None
      end
  end
with parse_members (fuel : nat) (s : string)
  : option (list (string * (json.RawMessage * value)) * string) :=
  match fuel with
  | O => None
  | S fuel' =>
      match skip_space s with
      | String q r =>
          match (if Ascii.eqb q DQUOTE then scan_string (S (String.length r)) r else None) with
          | Some (key, r1) =>
              match skip_space r1 with
              | String ":"%char r2 =>
                  let r3 := skip_space r2 in
                  match parse_value fuel' r3 with
                  | Some (v, r4) =>
                      let m := (key, (consumed r3 r4, v)) in
                      match skip_space r4 with
                      | String c r5 =>
                          if Ascii.eqb c "}"%char then Some ([m], r5)
                          else if Ascii.eqb c ","%char then
                            match parse_members fuel' r5 with
                            | Some (ms, r6) => Some (m :: ms, r6)
                            | None => None
                            end
                          else None
                      | EmptyString => None
                      end
                  | None => None
                  end
              | _ => None
              end
          | None => None
          end
      | EmptyString => None
      end
  end.

(** [checkValid] and the parse in one: the value a whole text denotes. *)
Definition parse (data : string) : option value :=
  match parse_value (2 * String.length data + 2) data with
  | Some (v, r) =>
      match skip_space r with
      | EmptyString => Some v
      | _ => None
      end
  | None => None
  end.

End jsontext.

(** ** Decoding a parsed value into the program's types *)
Module decode.

Import jsontext.

(** A decoder stores a value into a target that holds [old]. *)
Definition decoder (T : Type) : Type := value -> T -> T * option error.

Definition kind (v : value) : string :=
  match v with
  | Null => "null"
  | Bool _ => "bool"
  | Number _ => "number"
  | Str _ => "string"
  | Array _ => "array"
  | Object _ => "object"
  end.

Definition type_error (v : value) : option error := Some (UnmarshalTypeError (kind v)).

(** The error kept when two are met: the first. *)
Definition first (e1 e2 : option error) : option error :=
  match e1 with
  | Some _ => e1
  | None => e2
  end.

Definition into_string : decoder string :=
  fun v old =>
    match v with
    | Str s => (s, None)
    | Null => (old, None)
    | _ => (old, type_error v)
    end.

Definition lower (c : ascii) : ascii :=
  let n := nat_of_ascii c in
  if ((65 <=? n) && (n <=? 90))%nat then ascii_of_nat (n + 32) else c.

Fixpoint fold_eqb (a b : string) : bool :=
  match a, b with
  | EmptyString, EmptyString => true
  | String x a', String y b' => Ascii.eqb (lower x) (lower y) && fold_eqb a' b'
  | _, _ => false
  end.

Section Struct.
Context {T : Type}.
(** [field key raw v]: the store into the field that [key] names, the
    identity when it names none; [raw] is the text of [v]. *)
Variable field : string -> json.RawMessage -> decoder T.

Fixpoint into_members (ms : list (string * (json.RawMessage * value))) (old : T)
  : T * option error :=
  match ms with
  | [] => (old, None)
  | (key, (raw, v)) :: ms' =>
      let '(t1, e1) := field key raw v old in
      let '(t2, e2) := into_members ms' t1 in
      (t2, first e1 e2)
  end.

Definition into_struct : decoder T :=
  fun v old =>
    match v with
    | Object ms => into_members ms old
    | Null => (old, None)
    | _ => (old, type_error v)
    end.

End Struct.

(** A decimal literal of an [int64]: digits with an optional minus sign,
    within the range of the type. *)
Fixpoint Z_of_digits (acc : Z) (s : string) : option Z :=
  match s with
  | EmptyString => Some acc
  | String c r =>
      if is_digit c then Z_of_digits (10 * acc + Z.of_nat (nat_of_ascii c - 48)) r
      else None
  end.

Definition ParseInt64 (lit : string) : option Z :=
  let '(sign, ds) := scan_sign true lit in
  match ds with
  | EmptyString => None
  | _ =>
      match Z_of_digits 0 ds with
      | Some n =>
          let z := match sign with EmptyString => n | _ => (- n)%Z end in
          if ((- 2 ^ 63 <=? z) && (z <? 2 ^ 63))%Z then Some z else None
      | None => None
      end
  end.

Definition into_int64 : decoder Z :=
  fun v old =>
    match v with
    | Number lit =>
        match ParseInt64 lit with
        | Some z => (z, None)
        | None => (old, Some (UnmarshalTypeError ("number " ++ lit)))
        end
    | Null => (old, None)
    | _ => (old, type_error v)
    end.

(** In this instance a [float64] is held as a decimal literal that denotes
    it, and [%v] prints the literal: exact for the literals that are already
    in the form [%v] prints ([12.3], [250], [0.5]). *)
Definition float64 : Type := string.
Definition FormatFloat (f : float64) : string := f.

Definition into_float64 : decoder float64 :=
  fun v old =>
    match v with
    | Number lit => (lit, None)
    | Null => (old, None)
    | _ => (old, type_error v)
    end.

(** A slice: every element is decoded into a zero value. *)
Definition into_slice {T : Type} (elem : decoder T) (zero : T) : decoder (list T) :=
  fun v old =>
    match v with
    | Array vs =>
        fold_right (fun v acc =>
                      let '(t, e) := elem v zero in
                      (t :: fst acc, first e (snd acc)))
                   ([], None) vs
    | Null => ([], None)
    | _ => (old, type_error v)
    end.

(** [json.Unmarshal(data, &v)] with [v] holding [zero]. *)
Definition Unmarshal {T : Type} (dec : decoder T) (zero : T) : json.Unmarshal T :=
  fun data =>
    match parse data with
    | Some v => dec v zero
    | None => (zero, Some (SyntaxError "invalid JSON text"))
    end.

(** *** The fields of the program's structs, by their [json] tags *)

Definition Action_field (key : string) (raw : json.RawMessage) : decoder main.Action.t :=
  fun v old =>
    if fold_eqb key "action" then
      let '(s, e) := into_string v (main.Action.Action old) in
      ({| main.Action.Action := s; main.Action.Properties := main.Action.Properties old |}, e)
    else if fold_eqb key "properties" then
      ({| main.Action.Action := main.Action.Action old; main.Action.Properties := raw |}, None)
    else (old, None).

Definition LogSplitAction_field (key : string) (raw : json.RawMessage)
  : decoder main.LogSplitAction.t :=
  fun v old =>
    if fold_eqb key "logGroupName" then
      let '(s, e) := into_string v (main.LogSplitAction.LogGroupName old) in
      ({| main.LogSplitAction.LogGroupName := s |}, e)
    else (old, None).

Definition UnknownEvent_field (key : string) (raw : json.RawMessage)
  : decoder server.UnknownEvent.t :=
  fun v old =>
    let '(server.UnknownEvent.Build_t time type record) := old in
    if fold_eqb key "time" then
      let '(s, e) := into_string v time in (server.UnknownEvent.Build_t s type record, e)
    else if fold_eqb key "type" then
      let '(s, e) := into_string v type in (server.UnknownEvent.Build_t time s record, e)
    else if fold_eqb key "record" then (server.UnknownEvent.Build_t time type raw, None)
    else (old, None).

Definition PlatformInitStartEvent_field (key : string) (raw : json.RawMessage)
  : decoder server.PlatformInitStartEvent.t :=
  fun v old =>
    let '(server.PlatformInitStartEvent.Build_t it ph rv arn) := old in
    if fold_eqb key "initializationType" then
      let '(s, e) := into_string v it in (server.PlatformInitStartEvent.Build_t s ph rv arn, e)
    else if fold_eqb key "phase" then
      let '(s, e) := into_string v ph in (server.PlatformInitStartEvent.Build_t it s rv arn, e)
    else if fold_eqb key "runtimeVersion" then
      let '(s, e) := into_string v rv in (server.PlatformInitStartEvent.Build_t it ph s arn, e)
    else if fold_eqb key "runtimeVersionArn" then
      let '(s, e) := into_string v arn in (server.PlatformInitStartEvent.Build_t it ph rv s, e)
    else (old, None).

Definition PlatformStartEvent_field (key : string) (raw : json.RawMessage)
  : decoder server.PlatformStartEvent.t :=
  fun v old =>
    let '(server.PlatformStartEvent.Build_t id ver) := old in
    if fold_eqb key "requestId" then
      let '(s, e) := into_string v id in (server.PlatformStartEvent.Build_t s ver, e)
    else if fold_eqb key "version" then
      let '(s, e) := into_string v ver in (server.PlatformStartEvent.Build_t id s, e)
    else (old, None).

Definition RuntimeDone_Metrics_field (key : string) (raw : json.RawMessage)
  : decoder (server.PlatformRuntimeDone.Metrics_t float64) :=
  fun v old =>
    if fold_eqb key "durationMs" then
      let '(d, e) := into_float64 v (server.PlatformRuntimeDone.DurationMs old) in
      ({| server.PlatformRuntimeDone.DurationMs := d |}, e)
    else (old, None).

Definition PlatformRuntimeDone_field (key : string) (raw : json.RawMessage)
  : decoder (server.PlatformRuntimeDone.t float64) :=
  fun v old =>
    let '(server.PlatformRuntimeDone.Build_t _ id m) := old in
    if fold_eqb key "requestId" then
      let '(s, e) := into_string v id in (server.PlatformRuntimeDone.Build_t _ s m, e)
    else if fold_eqb key "metrics" then
      let '(m', e) := into_struct RuntimeDone_Metrics_field v m in
      (server.PlatformRuntimeDone.Build_t _ id m', e)
    else (old, None).

Definition Report_Metrics_field (key : string) (raw : json.RawMessage)
  : decoder (server.PlatformReportEvent.Metrics_t float64) :=
  fun v old =>
    let '(server.PlatformReportEvent.Build_Metrics_t _ d b ms mx ini) := old in
    if fold_eqb key "durationMs" then
      let '(x, e) := into_float64 v d in
      (server.PlatformReportEvent.Build_Metrics_t _ x b ms mx ini, e)
    else if fold_eqb key "billedDurationMs" then
      let '(x, e) := into_int64 v b in
      (server.PlatformReportEvent.Build_Metrics_t _ d x ms mx ini, e)
    else if fold_eqb key "memorySizeMb" then
      let '(x, e) := into_int64 v ms in
      (server.PlatformReportEvent.Build_Metrics_t _ d b x mx ini, e)
    else if fold_eqb key "maxMemoryUsedMb" then
      let '(x, e) := into_int64 v mx in
      (server.PlatformReportEvent.Build_Metrics_t _ d b ms x ini, e)
    else if fold_eqb key "initDurationMs" then
      let '(x, e) := into_int64 v ini in
      (server.PlatformReportEvent.Build_Metrics_t _ d b ms mx x, e)
    else (old, None).

Definition PlatformReportEvent_field (key : string) (raw : json.RawMessage)
  : decoder (server.PlatformReportEvent.t float64) :=
  fun v old =>
    let '(server.PlatformReportEvent.Build_t _ id m) := old in
    if fold_eqb key "requestId" then
      let '(s, e) := into_string v id in (server.PlatformReportEvent.Build_t _ s m, e)
    else if fold_eqb key "metrics" then
      let '(m', e) := into_struct Report_Metrics_field v m in
      (server.PlatformReportEvent.Build_t _ id m', e)
    else (old, None).

(** *** The instances, each from the zero value of its type *)

#[export] Instance Unmarshal_Action : json.Unmarshal main.Action.t :=
  Unmarshal (into_struct Action_field)
    {| main.Action.Action := EmptyString; main.Action.Properties := EmptyString |}.

#[export] Instance Unmarshal_LogSplitAction : json.Unmarshal main.LogSplitAction.t :=
  Unmarshal (into_struct LogSplitAction_field)
    {| main.LogSplitAction.LogGroupName := EmptyString |}.

#[export] Instance Unmarshal_string : json.Unmarshal string :=
  Unmarshal into_string EmptyString.

#[export] Instance Unmarshal_slice : json.Unmarshal (list server.UnknownEvent.t) :=
  Unmarshal
    (into_slice (into_struct UnknownEvent_field)
       (server.UnknownEvent.Build_t EmptyString EmptyString EmptyString))
    [].

#[export] Instance Unmarshal_InitStart : json.Unmarshal server.PlatformInitStartEvent.t :=
  Unmarshal (into_struct PlatformInitStartEvent_field)
    (server.PlatformInitStartEvent.Build_t EmptyString EmptyString EmptyString EmptyString).

#[export] Instance Unmarshal_Start : json.Unmarshal server.PlatformStartEvent.t :=
  Unmarshal (into_struct PlatformStartEvent_field)
    (server.PlatformStartEvent.Build_t EmptyString EmptyString).

#[export] Instance Unmarshal_RuntimeDone
  : json.Unmarshal (server.PlatformRuntimeDone.t float64) :=
  Unmarshal (into_struct PlatformRuntimeDone_field)
    (server.PlatformRuntimeDone.Build_t _ EmptyString
       {| server.PlatformRuntimeDone.DurationMs := "0" |}).

#[export] Instance Unmarshal_Report
  : json.Unmarshal (server.PlatformReportEvent.t float64) :=
  Unmarshal (into_struct PlatformReportEvent_field)
    (server.PlatformReportEvent.Build_t _ EmptyString
       (server.PlatformReportEvent.Build_Metrics_t _ "0" 0 0 0 0)).

End decode.

(** ** Notions the properties are stated with *)
Module notions.

(** The type tags for which the listener sends an event. *)
Definition recognized (ty : string) : bool :=
  (ty =? "platform.initStart") || (ty =? "platform.start") || (ty =? "platform.report")
  || (ty =? "platform.runtimeDone") || (ty =? "function").

Section Listener.
Context {float64 : Type}.
Context {U_initStart : json.Unmarshal server.PlatformInitStartEvent.t}
        {U_string : json.Unmarshal string}
        {U_start : json.Unmarshal server.PlatformStartEvent.t}
        {U_report : json.Unmarshal (server.PlatformReportEvent.t float64)}
        {U_runtimeDone : json.Unmarshal (server.PlatformRuntimeDone.t float64)}.

(** What decoding the record of an envelope gives, by its type tag: the
    record stored (whatever the error) and the error [json.Unmarshal]
    returned; [None] for a tag that is not recognized. *)
Definition decoding (evt : server.UnknownEvent.t)
  : option (server.Record_ float64 * option error) :=
  let ty := server.UnknownEvent.Type_ evt in
  let raw := server.UnknownEvent.Record_ evt in
  if ty =? "platform.initStart" then
    Some (server.InitStart (fst (json.unmarshal raw)),
          snd (json.unmarshal raw : server.PlatformInitStartEvent.t * option error))
  else if ty =? "function" then
    Some (server.Function (fst (json.unmarshal raw)),
          snd (json.unmarshal raw : string * option error))
  else if ty =? "platform.start" then
    Some (server.Start_ (fst (json.unmarshal raw)),
          snd (json.unmarshal raw : server.PlatformStartEvent.t * option error))
  else if ty =? "platform.report" then
    Some (server.Report (fst (json.unmarshal raw)),
          snd (json.unmarshal raw : server.PlatformReportEvent.t float64 * option error))
  else if ty =? "platform.runtimeDone" then
    Some (server.RuntimeDone (fst (json.unmarshal raw)),
          snd (json.unmarshal raw : server.PlatformRuntimeDone.t float64 * option error))
  else None.


(** An envelope whose record fails to decode. *)
Definition decode_fails (evt : server.UnknownEvent.t) : Prop :=
  exists r e, decoding evt = Some (r, Some e).


(** The lines the handler prints for an envelope; none tells of a decoding. *)
Definition printed (evt : server.UnknownEvent.t) : list string :=
  let ty := server.UnknownEvent.Type_ evt in
  if ty =? "platform.runtimeDone" then [server.UnknownEvent.Record_ evt]
  else if recognized ty
          || (ty =? "platform.extension") || (ty =? "platform.initReport")
          || (ty =? "platform.initRuntimeDone")
          || (ty =? "platform.telemetrySubscription") then []
  else [server.Println3 "unknown event type" ty (server.UnknownEvent.Record_ evt)].

End Listener.

Section Main.
Context {float64 : Type}.
Variable FormatFloat : float64 -> string.
Context {U_action : json.Unmarshal main.Action.t}
        {U_logSplit : json.Unmarshal main.LogSplitAction.t}.

(** A valid directive: a function log line that matches the marker, whose
    payload decodes to an action [log.split], whose properties decode; the
    value is the [logGroupName] decoded. *)
Definition directive (r : server.Record_ float64) : option string :=
  match r with
  | server.Function v =>
      match regexp.FindStringSubmatch v with
      | [_; payload] =>
          match (json.unmarshal payload : main.Action.t * option error) with
          | (action, None) =>
              if main.Action.Action action =? "log.split" then
                match (json.unmarshal (main.Action.Properties action)
                       : main.LogSplitAction.t * option error) with
                | (props, None) => Some (main.LogSplitAction.LogGroupName props)
                | (_, Some _) => None
                end
              else None
          | (_, Some _) => None
          end
      | _ => None
      end
  | _ => None
  end.

(** The group of the last valid directive among [q], if there is one. *)
Fixpoint last_directive (q : list (server.Event.t float64)) : option string :=
  match q with
  | [] => None
  | evt :: q' =>
      match last_directive q' with
      | Some g => Some g
      | None => directive (server.Event.Record' evt)
      end
  end.

Definition is_RuntimeDone (evt : server.Event.t float64) : bool :=
  match server.Event.Record' evt with
  | server.RuntimeDone _ => true
  | _ => false
  end.

(** The locals after the range loop has taken the events [q], none of them a
    [RuntimeDone]. *)
Definition accumulated (q : list (server.Event.t float64)) (l : main.Locals) : main.Locals :=
  fold_left (fun l evt => main.accumulate FormatFloat (server.Event.Record' evt) l) q l.

Definition Messages (put : cloudwatchlogs.PutLogEventsInput.t) : list string :=
  map cloudwatchlogs.InputLogEvent.Message (cloudwatchlogs.PutLogEventsInput.LogEvents put).

End Main.

End notions.

(** ** An instance of the world: a log store and a clock *)
Module cloud.

Definition Streams : Type := list (string * list cloudwatchlogs.InputLogEvent.t).

(** The groups of the store with their streams, and the clock (nanoseconds). *)
Record t : Type := {
  groups : list (string * Streams);
  clock : Z
}.

Fixpoint lookup {A : Type} (k : string) (m : list (string * A)) : option A :=
  match m with
  | [] => None
  | (k', a) :: m' => if k =? k' then Some a else lookup k m'
  end.

Fixpoint update {A : Type} (k : string) (a : A) (m : list (string * A)) : list (string * A) :=
  match m with
  | [] => [(k, a)]
  | (k', a') :: m' => if k =? k' then (k, a) :: m' else (k', a') :: update k a m'
  end.

Definition NotFound : option error := Some (APIError "ResourceNotFoundException").
Definition AlreadyExists : option error := Some (APIError "ResourceAlreadyExistsException").

Definition PutLogEvents (input : cloudwatchlogs.PutLogEventsInput.t) (w : t) : t * option error :=
  let g := cloudwatchlogs.PutLogEventsInput.LogGroupName input in
  let s := cloudwatchlogs.PutLogEventsInput.LogStreamName input in
  match lookup g (groups w) with
  | None => (w, NotFound)
  | Some streams =>
      match lookup s streams with
      | None => (w, NotFound)
      | Some evs =>
          let evs' := (evs ++ cloudwatchlogs.PutLogEventsInput.LogEvents input)%list in
          ({| groups := update g (update s evs' streams) (groups w); clock := clock w |}, None)
      end
  end.

Definition CreateLogGroup (input : cloudwatchlogs.CreateLogGroupInput.t) (w : t)
  : t * option error :=
  let g := cloudwatchlogs.CreateLogGroupInput.LogGroupName input in
  match lookup g (groups w) with
  | Some _ => (w, AlreadyExists)
  | None => ({| groups := update g [] (groups w); clock := clock w |}, None)
  end.

Definition CreateLogStream (input : cloudwatchlogs.CreateLogStreamInput.t) (w : t)
  : t * option error :=
  let g := cloudwatchlogs.CreateLogStreamInput.LogGroupName input in
  let s := cloudwatchlogs.CreateLogStreamInput.LogStreamName input in
  match lookup g (groups w) with
  | None => (w, NotFound)
  | Some streams =>
      match lookup s streams with
      | Some _ => (w, AlreadyExists)
      | None =>
          ({| groups := update g (update s [] streams) (groups w); clock := clock w |}, None)
      end
  end.

#[export] Instance client : cloudwatchlogs.Client t := {
  cloudwatchlogs.PutLogEvents := PutLogEvents;
  cloudwatchlogs.CreateLogGroup := CreateLogGroup;
  cloudwatchlogs.CreateLogStream := CreateLogStream
}.

(** Each reading of the clock finds it a microsecond later. *)
#[export] Instance Clock : time.Clock t :=
  fun w => (clock w, {| groups := groups w; clock := clock w + 1000 |}).

End cloud.

(** ** One invocation, on concrete telemetry *)
Module example.

Import decode.

(** A text with every apostrophe turned into a double quote. *)
Fixpoint dq (s : string) : string :=
  match s with
  | EmptyString => EmptyString
  | String c r => String (if Ascii.eqb c "'"%char then DQUOTE else c) (dq r)
  end.

Definition Getenv (name : string) : string :=
  if name =? "AWS_LAMBDA_FUNCTION_MEMORY_SIZE" then "128" else EmptyString.

Definition streamName : string := "2026/11/01/0b9c1d5e-4c1f-4f7e-9d55-6a1f2f3f9a10".

Definition directive_line : string :=
  dq "::sst::{'action':'log.split','properties':{'logGroupName':'/my/group'}}".

Definition malformed_line : string := "::sst::{oops".

(** The batch the telemetry source posts for request [r1]. *)
Definition body : string :=
  dq ("[{'time':'t1','type':'platform.start','record':{'requestId':'r1','version':'$LATEST'}},"
      ++ "{'time':'t2','type':'function','record':'hello'},"
      ++ "{'time':'t3','type':'platform.extension','record':{'name':'sst'}},"
      ++ "{'time':'t4','type':'function','record':'::sst::{\'action\':\'log.split\',"
      ++ "\'properties\':{\'logGroupName\':\'/my/group\'}}'},"
      ++ "{'time':'t5','type':'platform.runtimeDone',"
      ++ "'record':{'requestId':'r1','status':'success','metrics':{'durationMs':12.3}}},"
      ++ "{'time':'t6','type':'function','record':'late'}]").

Definition slice : list server.UnknownEvent.t := fst (json.unmarshal body).


Definition hstate0 : server.HState (float64 := float64) :=
  {| server.events := Some (chan.make (server.Event.t float64)); server.log := [] |}.

Definition world0 : cloud.t := {| cloud.groups := []; cloud.clock := 1793500000000000000 |}.

Definition globals0 : server.Globals float64 :=
  fst (server.Start {| server.httpServer := None; server.Events := None |}).

Definition response (ty id : string) : extension.NextEventResponse.t :=
  {| extension.NextEventResponse.EventType_ := ty;
     extension.NextEventResponse.DeadlineMs := 0;
     extension.NextEventResponse.RequestID := id;
     extension.NextEventResponse.InvokedFunctionArn := "arn:aws:lambda:eu-west-1:1:function:f";
     extension.NextEventResponse.Tracing_ :=
       {| extension.Tracing.Type_ := EmptyString; extension.Tracing.Value := EmptyString |} |}.

Definition event (time type : string) (r : server.Record_ float64) : server.Event.t float64 :=
  {| server.Event.Time := time; server.Event.Type_ := type; server.Event.Record' := r |}.

Definition done_r1 : server.PlatformRuntimeDone.t float64 :=
  {| server.PlatformRuntimeDone.RequestID := "r1";
     server.PlatformRuntimeDone.Metrics := {| server.PlatformRuntimeDone.DurationMs := "12.3" |} |}.

Definition done_r2 : server.PlatformRuntimeDone.t float64 :=
  {| server.PlatformRuntimeDone.RequestID := "r2";
     server.PlatformRuntimeDone.Metrics := {| server.PlatformRuntimeDone.DurationMs := "250" |} |}.

Definition fn (time line : string) : server.Event.t float64 :=
  event time "function" (server.Function line).

Definition done (time : string) (v : server.PlatformRuntimeDone.t float64)
  : server.Event.t float64 :=
  event time "platform.runtimeDone" (server.RuntimeDone v).


Definition locals0 : main.Locals := {| main.buffer := []; main.logGroupName := EmptyString |}.

Definition locals1 : main.Locals :=
  {| main.buffer := ["hello"]; main.logGroupName := "/first" |}.

(** A store in which the group exists and the stream does not. *)
Definition world1 : cloud.t :=
  {| cloud.groups := [("/my/group", [])]; cloud.clock := 1793500000000000000 |}.

Definition put1 : cloudwatchlogs.PutLogEventsInput.t :=
  {| cloudwatchlogs.PutLogEventsInput.LogGroupName := "/my/group";
     cloudwatchlogs.PutLogEventsInput.LogStreamName := streamName;
     cloudwatchlogs.PutLogEventsInput.LogEvents :=
       [{| cloudwatchlogs.InputLogEvent.Message := "hello";
           cloudwatchlogs.InputLogEvent.Timestamp := 1793500000000 |}] |}.

Definition state0 (q : list (server.Event.t float64)) : main.State :=
  {| main.globals :=
       {| server.httpServer := server.httpServer globals0;
          server.Events := Some {| chan.closed := false; chan.buf := q |} |};
     main.vars := locals0;
     main.env := world0;
     main.trace := [] |}.

End example.

(** ** net/http, as api/extension/client.go uses it *)
Module http.

Definition is_lower (c : ascii) : bool :=
  let n := nat_of_ascii c in ((97 <=? n) && (n <=? 122))%nat.

Definition is_upper (c : ascii) : bool :=
  let n := nat_of_ascii c in ((65 <=? n) && (n <=? 90))%nat.

(** The bytes of a header field name: letters, digits and a few signs. *)
Definition validHeaderFieldByte (c : ascii) : bool :=
  is_lower c || is_upper c || jsontext.is_digit c
  || existsb (Ascii.eqb c) (list_ascii_of_string "!#$%&'*+-.^_`|~").

Fixpoint all_valid (s : string) : bool :=
  match s with
  | EmptyString => true
  | String c r => validHeaderFieldByte c && all_valid r
  end.

(** Upper case for the first letter and for a letter after a dash, lower
    case for the other letters. *)
Fixpoint canonical (upper : bool) (s : string) : string :=
  match s with
  | EmptyString => EmptyString
  | String c r =>
      let c' :=
        if upper && is_lower c then ascii_of_nat (nat_of_ascii c - 32)
        else if negb upper && is_upper c then ascii_of_nat (nat_of_ascii c + 32)
        else c in
      String c' (canonical (Ascii.eqb c' "-"%char) r)
  end.

(** [textproto.CanonicalMIMEHeaderKey]: a name holding a byte that is not one
    of a field name is returned as it is. *)
Definition CanonicalMIMEHeaderKey (s : string) : string :=
  if all_valid s then canonical true s else s.

(** [http.Header], a map from canonical names to values. *)
Definition Header : Type := list (string * list string).

Fixpoint lookup (k : string) (h : Header) : option (list string) :=
  match h with
  | [] => None
  | (k', vs) :: h' => if k =? k' then Some vs else lookup k h'
  end.

Fixpoint store (k : string) (vs : list string) (h : Header) : Header :=
  match h with
  | [] => [(k, vs)]
  | (k', vs') :: h' => if k =? k' then (k, vs) :: h' else (k', vs') :: store k vs h'
  end.

(** [h.Set(key, value)] and [h.Get(key)]. *)
Definition Set_ (h : Header) (key value : string) : Header :=
  store (CanonicalMIMEHeaderKey key) [value] h.

Definition Get (h : Header) (key : string) : string :=
  match lookup (CanonicalMIMEHeaderKey key) h with
  | Some (v :: _) => v
  | _ => EmptyString
  end.

Module Request.
Record t : Type := {
  Method : string;
  URL : string;
  Header_ : Header;
  Body : option string
}.
End Request.

(** A response; [Body] is what [io.ReadAll(res.Body)] returns. *)
Module Response.
Record t : Type := {
  Status : string;
  StatusCode : Z;
  Header_ : Header;
  Body : string * option error
}.
End Response.

(** [client.Do(req)] on a world [W]: a response or an error. *)
Class Client (W : Type) : Type :=
  Do : Request.t -> W -> (Response.t + error) * W.

(** [http.NewRequestWithContext] with a method that is valid and a context
    that is not nil: it fails when the URL does not parse; [url_Parse] gives
    the error of [url.Parse], if any. *)
Definition NewRequest (url_Parse : string -> option error)
  (method url : string) (body : option string) : Request.t + error :=
  match url_Parse url with
  | Some e => inr e
  | None => inl {| Request.Method := method; Request.URL := url;
                   Request.Header_ := []; Request.Body := body |}
  end.

End http.

(** ** api/extension/client.go: the four calls on the Extensions API *)
Module client.

Module RegisterResponse.
Record t : Type := {
  FunctionName : string;
  FunctionVersion : string;
  Handler : string
}.
End RegisterResponse.

Module StatusResponse.
Record t : Type := { Status : string }.
End StatusResponse.

Definition extensionNameHeader : string := "Lambda-Extension-Name".
Definition extensionIdentiferHeader : string := "Lambda-Extension-Identifier".
Definition extensionErrorType : string := "Lambda-Extension-Function-Error-Type".

(** What a call does besides returning: the request handed to [client.Do],
    the closing of the response body that [defer] brings about, a line
    printed (its error operand left out). *)
Inductive Effect : Type :=
| Sent (req : http.Request.t)
| BodyClosed
| Printed (line : string).

(** What a call returns and leaves: the two results, the package variable
    [extensionID], the world, the effects in order. *)
Record Ret (A W : Type) : Type := {
  ret : A;
  err : option error;
  extensionID : string;
  world : W;
  effects : list Effect
}.
Arguments ret {A W} _.
Arguments err {A W} _.
Arguments extensionID {A W} _.
Arguments world {A W} _.
Arguments effects {A W} _.

(** [json.Marshal] of a slice of [EventType]s whose bytes need no escape. *)
Definition Marshal_events (events : list extension.EventType) : string :=
  let quote s := String DQUOTE (s ++ String DQUOTE EmptyString) in
  "[" ++ String.concat "," (map quote events) ++ "]".

(** [json.Marshal] of the map with the one key [events]. *)
Definition Marshal_register (events : list extension.EventType) : string :=
  "{" ++ String DQUOTE ("events" ++ String DQUOTE (":" ++ Marshal_events events ++ "}")).

Section Client.
Context {W : Type} {transport : http.Client W}.
Context {U_register : json.Unmarshal RegisterResponse.t}
        {U_next : json.Unmarshal extension.NextEventResponse.t}
        {U_status : json.Unmarshal StatusResponse.t}.
(** The error of [url.Parse], and the package variable [baseUrl]. *)
Variable url_Parse : string -> option error.
Variable baseUrl : string.

Definition Register (id : string) (w : W) : Ret string W :=
  let url := baseUrl ++ "/register" in
  let body := Marshal_register [extension.Invoke; extension.Shutdown] in
  match http.NewRequest url_Parse "POST" url (Some body) with
  | inr e => {| ret := EmptyString; err := Some e; extensionID := id; world := w;
                effects := [] |}
  | inl req =>
      let req := {| http.Request.Method := http.Request.Method req;
                    http.Request.URL := http.Request.URL req;
                    http.Request.Header_ :=
                      http.Set_ (http.Request.Header_ req) extensionNameHeader "sst";
                    http.Request.Body := http.Request.Body req |} in
      match http.Do req w with
      | (inr e, w1) =>
          {| ret := EmptyString; err := Some e; extensionID := id; world := w1;
             effects := [Sent req; Printed "[client:Register] Registration failed"] |}
      | (inl res, w1) =>
          if negb (http.Response.StatusCode res =? 200)%Z then
            {| ret := EmptyString;
               err := Some (OtherError ("registration failed with status "
                                        ++ http.Response.Status res));
               extensionID := id; world := w1;
               effects :=
                 [Sent req;
                  Printed "[client:Register] Registration failed with statusCode "] |}
          else
            match http.Response.Body res with
            | (_, Some e) =>
                {| ret := EmptyString; err := Some e; extensionID := id; world := w1;
                   effects := [Sent req; BodyClosed] |}
            | (bytes, None) =>
                match snd (json.unmarshal bytes : RegisterResponse.t * option error) with
                | Some e =>
                    {| ret := EmptyString; err := Some e; extensionID := id; world := w1;
                       effects := [Sent req; BodyClosed] |}
                | None =>
                    let id' := http.Get (http.Response.Header_ res) extensionIdentiferHeader in
                    {| ret := id'; err := None; extensionID := id'; world := w1;
                       effects := [Sent req; BodyClosed] |}
                end
            end
      end
  end.

Definition EventNext (id : string) (w : W) : Ret (option extension.NextEventResponse.t) W :=
  let url := baseUrl ++ "/event/next" in
  match http.NewRequest url_Parse "GET" url None with
  | inr e => {| ret := None; err := Some e; extensionID := id; world := w; effects := [] |}
  | inl req =>
      let req := {| http.Request.Method := http.Request.Method req;
                    http.Request.URL := http.Request.URL req;
                    http.Request.Header_ :=
                      http.Set_ (http.Request.Header_ req) extensionIdentiferHeader id;
                    http.Request.Body := http.Request.Body req |} in
      match http.Do req w with
      | (inr e, w1) =>
          {| ret := None; err := Some e; extensionID := id; world := w1;
             effects := [Sent req] |}
      | (inl res, w1) =>
          if negb (http.Response.StatusCode res =? 200)%Z then
            {| ret := None;
               err := Some (OtherError ("request failed with status "
                                        ++ http.Response.Status res));
               extensionID := id; world := w1; effects := [Sent req] |}
          else
            match http.Response.Body res with
            | (_, Some e) =>
                {| ret := None; err := Some e; extensionID := id; world := w1;
                   effects := [Sent req; BodyClosed] |}
            | (byes, None) =>
                match (json.unmarshal byes
                       : extension.NextEventResponse.t * option error) with
                | (_, Some e) =>
                    {| ret := None; err := Some e; extensionID := id; world := w1;
                       effects := [Sent req; BodyClosed] |}
                | (out, None) =>
                    {| ret := Some out; err := None; extensionID := id; world := w1;
                       effects := [Sent req; BodyClosed] |}
                end
            end
      end
  end.

Definition InitError (errorType : string) (id : string) (w : W)
  : Ret (option StatusResponse.t) W :=
  let url := baseUrl ++ "/init/error" in
  match http.NewRequest url_Parse "POST" url None with
  | inr e => {| ret := None; err := Some e; extensionID := id; world := w; effects := [] |}
  | inl req =>
      let req := {| http.Request.Method := http.Request.Method req;
                    http.Request.URL := http.Request.URL req;
                    http.Request.Header_ :=
                      http.Set_
                        (http.Set_ (http.Request.Header_ req) extensionIdentiferHeader id)
                        extensionErrorType errorType;
                    http.Request.Body := http.Request.Body req |} in
      match http.Do req w with
      | (inr e, w1) =>
          {| ret := None; err := Some e; extensionID := id; world := w1;
             effects := [Sent req] |}
      | (inl res, w1) =>
          if negb (http.Response.StatusCode res =? 200)%Z then
            {| ret := None;
               err := Some (OtherError ("request failed with status "
                                        ++ http.Response.Status res));
               extensionID := id; world := w1; effects := [Sent req] |}
          else
            match http.Response.Body res with
            | (_, Some e) =>
                {| ret := None; err := Some e; extensionID := id; world := w1;
                   effects := [Sent req; BodyClosed] |}
            | (body, None) =>
                match (json.unmarshal body : StatusResponse.t * option error) with
                | (_, Some e) =>
                    {| ret := None; err := Some e; extensionID := id; world := w1;
                       effects := [Sent req; BodyClosed] |}
                | (out, None) =>
                    {| ret := Some out; err := None; extensionID := id; world := w1;
                       effects := [Sent req; BodyClosed] |}
                end
            end
      end
  end.

Definition ExitError (errorType : string) (id : string) (w : W)
  : Ret (option StatusResponse.t) W :=
  let url := baseUrl ++ "/exit/error" in
  match http.NewRequest url_Parse "POST" url None with
  | inr e => {| ret := None; err := Some e; extensionID := id; world := w; effects := [] |}
  | inl req =>
      let req := {| http.Request.Method := http.Request.Method req;
                    http.Request.URL := http.Request.URL req;
                    http.Request.Header_ :=
                      http.Set_
                        (http.Set_ (http.Request.Header_ req) extensionIdentiferHeader id)
                        extensionErrorType errorType;
                    http.Request.Body := http.Request.Body req |} in
      match http.Do req w with
      | (inr e, w1) =>
          {| ret := None; err := Some e; extensionID := id; world := w1;
             effects := [Sent req] |}
      | (inl res, w1) =>
          if negb (http.Response.StatusCode res =? 200)%Z then
            {| ret := None;
               err := Some (OtherError ("request failed with status "
                                        ++ http.Response.Status res));
               extensionID := id; world := w1; effects := [Sent req] |}
          else
            match http.Response.Body res with
            | (_, Some e) =>
                {| ret := None; err := Some e; extensionID := id; world := w1;
                   effects := [Sent req; BodyClosed] |}
            | (body, None) =>
                match (json.unmarshal body : StatusResponse.t * option error) with
                | (_, Some e) =>
                    {| ret := None; err := Some e; extensionID := id; world := w1;
                       effects := [Sent req; BodyClosed] |}
                | (out, None) =>
                    {| ret := Some out; err := None; extensionID := id; world := w1;
                       effects := [Sent req; BodyClosed] |}
                end
            end
      end
  end.

End Client.

End client.

(** ** Notions for the further properties *)
Module flow.

Section Lines.
Context {float64 : Type}.

(** The line an event adds to the buffer, if it adds one. *)
Definition lines (r : server.Record_ float64) : list string :=
  match r with
  | server.InitStart v =>
      ["INIT_START Runtime Version: " ++ server.PlatformInitStartEvent.RuntimeVersion v
       ++ " Runtime Version ARN: " ++ server.PlatformInitStartEvent.RuntimeVersionArn v]
  | server.Start_ v =>
      ["START RequestId: " ++ server.PlatformStartEvent.RequestID v
       ++ " Version: " ++ server.PlatformStartEvent.Version v]
  | server.Function v =>
      match regexp.FindStringSubmatch v with
      | [] => [v]
      | _ => []
      end
  | server.Report _ => []
  | server.RuntimeDone _ => []
  end.

(** [Shutdown] called once for each element of [errs], the element being
    what the graceful shutdown of that call returns if it is reached. *)
Fixpoint Shutdowns (errs : list (option error)) (g : server.Globals float64)
  : outcome (server.Globals float64 * server.Log) :=
  match errs with
  | [] => Done (g, [])
  | e :: rest =>
      r <- server.Shutdown e g ;;
      r' <- Shutdowns rest (fst r) ;;
      Done (fst r', (snd r ++ snd r')%list)
  end.

End Lines.

(** The calls of a put loop that ends after [k] refusals for a missing
    destination. *)
Fixpoint retries (k : nat) (put : cloudwatchlogs.PutLogEventsInput.t)
  (group : cloudwatchlogs.CreateLogGroupInput.t)
  (stream : cloudwatchlogs.CreateLogStreamInput.t) : list main.Call :=
  match k with
  | O => [main.CallPutLogEvents put]
  | S k' =>
      main.CallPutLogEvents put :: main.CallCreateLogGroup group
      :: main.CallCreateLogStream stream :: retries k' put group stream
  end.

(** [s] holds the text [t] somewhere. *)
Definition occurs (t s : string) : Prop :=
  exists before after : string, s = (before ++ t ++ after)%string.

Fixpoint has_LF (s : string) : bool :=
  match s with
  | EmptyString => false
  | String c r => Ascii.eqb c LF || has_LF r
  end.

Definition is_Sent (e : client.Effect) : bool :=
  match e with
  | client.Sent _ => true
  | _ => false
  end.

(** The discipline of a call on the Extensions API started in world [w]:
    at most one request is sent, and the body of the response to it is
    closed exactly when its status code is 200. *)
Definition one_request_closed_iff_ok {W : Type} {transport : http.Client W}
  (w : W) (effects : list client.Effect) : Prop :=
  (length (filter is_Sent effects) <= 1)%nat
  /\ forall req res w1,
       In (client.Sent req) effects ->
       http.Do req w = (inl res, w1) ->
       (In client.BodyClosed effects <-> http.Response.StatusCode res = 200%Z).


End flow.

(** ** Instances for the calls on the Extensions API *)
Module session.

Import jsontext decode.

Definition RegisterResponse_field (key : string) (raw : json.RawMessage)
  : decoder client.RegisterResponse.t :=
  fun v old =>
    let '(client.RegisterResponse.Build_t name version handler) := old in
    if fold_eqb key "functionName" then
      let '(s, e) := into_string v name in (client.RegisterResponse.Build_t s version handler, e)
    else if fold_eqb key "functionVersion" then
      let '(s, e) := into_string v version in (client.RegisterResponse.Build_t name s handler, e)
    else if fold_eqb key "handler" then
      let '(s, e) := into_string v handler in (client.RegisterResponse.Build_t name version s, e)
    else (old, None).

Definition StatusResponse_field (key : string) (raw : json.RawMessage)
  : decoder client.StatusResponse.t :=
  fun v old =>
    if fold_eqb key "status" then
      let '(s, e) := into_string v (client.StatusResponse.Status old) in
      ({| client.StatusResponse.Status := s |}, e)
    else (old, None).

Definition Tracing_field (key : string) (raw : json.RawMessage)
  : decoder extension.Tracing.t :=
  fun v old =>
    let '(extension.Tracing.Build_t type value) := old in
    if fold_eqb key "type" then
      let '(s, e) := into_string v type in (extension.Tracing.Build_t s value, e)
    else if fold_eqb key "value" then
      let '(s, e) := into_string v value in (extension.Tracing.Build_t type s, e)
    else (old, None).

Definition NextEventResponse_field (key : string) (raw : json.RawMessage)
  : decoder extension.NextEventResponse.t :=
  fun v old =>
    let '(extension.NextEventResponse.Build_t type deadline id arn tracing) := old in
    if fold_eqb key "eventType" then
      let '(s, e) := into_string v type in
      (extension.NextEventResponse.Build_t s deadline id arn tracing, e)
    else if fold_eqb key "deadlineMs" then
      let '(z, e) := into_int64 v deadline in
      (extension.NextEventResponse.Build_t type z id arn tracing, e)
    else if fold_eqb key "requestId" then
      let '(s, e) := into_string v id in
      (extension.NextEventResponse.Build_t type deadline s arn tracing, e)
    else if fold_eqb key "invokedFunctionArn" then
      let '(s, e) := into_string v arn in
      (extension.NextEventResponse.Build_t type deadline id s tracing, e)
    else if fold_eqb key "tracing" then
      let '(t, e) := into_struct Tracing_field v tracing in
      (extension.NextEventResponse.Build_t type deadline id arn t, e)
    else (old, None).

#[export] Instance Unmarshal_RegisterResponse : json.Unmarshal client.RegisterResponse.t :=
  Unmarshal (into_struct RegisterResponse_field)
    (client.RegisterResponse.Build_t EmptyString EmptyString EmptyString).

#[export] Instance Unmarshal_StatusResponse : json.Unmarshal client.StatusResponse.t :=
  Unmarshal (into_struct StatusResponse_field)
    {| client.StatusResponse.Status := EmptyString |}.

#[export] Instance Unmarshal_NextEventResponse
  : json.Unmarshal extension.NextEventResponse.t :=
  Unmarshal (into_struct NextEventResponse_field)
    (extension.NextEventResponse.Build_t EmptyString 0 EmptyString EmptyString
       (extension.Tracing.Build_t EmptyString EmptyString)).

(** A control plane that answers from a script: the replies still to give. *)
Definition Script : Type := list (http.Response.t + error).

#[export] Instance scripted : http.Client Script :=
  fun req w =>
    match w with
    | [] => (inr (OtherError "connection refused"), [])
    | reply :: rest => (reply, rest)
    end.

Definition url_Parse (url : string) : option error := None.

Definition baseUrl : string := "http://127.0.0.1:9001/2020-01-01/extension".

Definition ok (headers : http.Header) (body : string) : http.Response.t + error :=
  inl {| http.Response.Status := "200 OK"; http.Response.StatusCode := 200;
         http.Response.Header_ := headers; http.Response.Body := (body, None) |}.

Definition forbidden : http.Response.t + error :=
  inl {| http.Response.Status := "403 Forbidden"; http.Response.StatusCode := 403;
         http.Response.Header_ := []; http.Response.Body := (EmptyString, None) |}.

Definition registered : http.Response.t + error :=
  ok [("Lambda-Extension-Identifier", ["abc123"])]
     (example.dq "{'functionName':'f','functionVersion':'$LATEST','handler':'index.handler'}").

Definition invoke_r1 : http.Response.t + error :=
  ok [] (example.dq
           ("{'eventType':'INVOKE','deadlineMs':1793500003000,'requestId':'r1',"
            ++ "'invokedFunctionArn':'arn:aws:lambda:eu-west-1:1:function:f',"
            ++ "'tracing':{'type':'X-Amzn-Trace-Id','value':'Root=1'}}")).

(** A log store whose caller may put and may not create. *)
Definition denied : option error := Some (APIError "AccessDeniedException").

Definition readonly : cloudwatchlogs.Client cloud.t := {|
  cloudwatchlogs.PutLogEvents := cloud.PutLogEvents;
  cloudwatchlogs.CreateLogGroup := fun _ w => (w, denied);
  cloudwatchlogs.CreateLogStream := fun _ w => (w, denied)
|}.



Definition closed_hstate : server.HState (float64 := float64) :=
  {| server.events := Some {| chan.closed := true; chan.buf := [] |};
     server.log := [] |}.

Definition ignored_envelopes : list server.UnknownEvent.t :=
  [{| server.UnknownEvent.Time := "t1";
      server.UnknownEvent.Type_ := "platform.initReport";
      server.UnknownEvent.Record_ := "{}" |};
   {| server.UnknownEvent.Time := "t2";
      server.UnknownEvent.Type_ := "platform.logsDropped";
      server.UnknownEvent.Record_ := "{}" |}].

End session.

(** * Properties *)

(** ** The listener *)

Section ListenerProperties.
Context {float64 : Type}.
Context {U_slice : json.Unmarshal (list server.UnknownEvent.t)}
        {U_initStart : json.Unmarshal server.PlatformInitStartEvent.t}
        {U_string : json.Unmarshal string}
        {U_start : json.Unmarshal server.PlatformStartEvent.t}
        {U_report : json.Unmarshal (server.PlatformReportEvent.t float64)}
        {U_runtimeDone : json.Unmarshal (server.PlatformRuntimeDone.t float64)}.

Local Open Scope list_scope.

Local Abbreviation Event := (server.Event.t float64).
Local Abbreviation one e := (match e with Some x => [x] | None => @nil Event end).




(** On a closed queue the send of a recognized envelope panics: the
    hypothesis of an open queue below is needed. *)
Lemma dispatch_closed (st : server.HState) (ch : chan.t Event) (evt : server.UnknownEvent.t) :
  server.events st = Some ch ->
  chan.closed ch = true ->
  notions.recognized (server.UnknownEvent.Type_ evt) = true ->
  server.dispatch st evt = Panic "send on closed channel".
Proof.
  destruct st as [ev lg], ch as [cl q], evt as [time ty raw]; simpl.
  intros -> ->.
  unfold server.dispatch, notions.recognized; simpl.
  repeat match goal with
         | |- context [String.eqb ty ?k] =>
             destruct (String.eqb_spec ty k) as [-> | ?]; simpl
         end;
    intros H; try discriminate H; reflexivity.
Qed.







(** After a call whose graceful shutdown succeeded, [Shutdown] does nothing. *)
Lemma Shutdown_after_success_is_noop
  (srv : server.http_Server.t) (q : list Event) (e2 : option error) :
  (r <- server.Shutdown None
          {| server.httpServer := Some srv;
             server.Events := Some {| chan.closed := false; chan.buf := q |} |} ;;
   server.Shutdown e2 (fst r))
  = Done ({| server.httpServer := None;
             server.Events := Some {| chan.closed := true; chan.buf := q |} |}, []).
Proof. reflexivity. Qed.

(** C7, where the code departs from it. When the graceful shutdown of the
    first call fails, [httpServer] is left set and the queue is closed, and
    the second call closes the queue again: it panics. *)
Theorem Shutdown_again_after_failed_grace_panics
  (srv : server.http_Server.t) (q : list Event) (e1 : error) (e2 : option error) :
  (r <- server.Shutdown (Some e1)
          {| server.httpServer := Some srv;
             server.Events := Some {| chan.closed := false; chan.buf := q |} |} ;;
   server.Shutdown e2 (fst r))
  = Panic "close of closed channel".
Proof. reflexivity. Qed.

End ListenerProperties.

(** ** The invocation loop and the flush *)

Lemma append_empty_r (s : string) : (s ++ EmptyString)%string = s.
Proof. induction s as [| c s IH]; simpl; [| rewrite IH]; reflexivity. Qed.

(** The pattern has one group: a match is the matched text and the group. *)
Lemma FindStringSubmatch_shape (s : string) :
  regexp.FindStringSubmatch s = []
  \/ exists payload,
      regexp.FindStringSubmatch s = [(regexp.marker ++ payload)%string; payload].
Proof.
  induction s as [| c s IH]; [left; reflexivity |].
  cbn [regexp.FindStringSubmatch].
  destruct (regexp.strip regexp.marker (String c s)) as [rest |]; [| exact IH].
  destruct (regexp.dots rest) as [| d ds]; [exact IH |].
  right. eexists. reflexivity.
Qed.

Section MainProperties.
Context {float64 : Type}.
Variable FormatFloat : float64 -> string.
Context {U_action : json.Unmarshal main.Action.t}
        {U_logSplit : json.Unmarshal main.LogSplitAction.t}.
Context {W : Type} {client : cloudwatchlogs.Client W} {clock : time.Clock W}.
Variable Getenv : string -> string.
Variable streamName : string.

Local Open Scope list_scope.

Local Abbreviation Event := (server.Event.t float64).
Local Abbreviation directive := (@notions.directive float64 _ _).
Local Abbreviation last_directive := (@notions.last_directive float64 _ _).
Local Abbreviation accumulate := (main.accumulate FormatFloat).
Local Abbreviation accumulated := (notions.accumulated FormatFloat).
Local Abbreviation END_line := (main.END_line FormatFloat).
Local Abbreviation REPORT_line := (main.REPORT_line FormatFloat Getenv).
Local Abbreviation flush_input := (main.flush_input FormatFloat Getenv streamName).
Local Abbreviation put_loop := (main.put_loop streamName).
Local Abbreviation range_Events := (main.range_Events FormatFloat Getenv streamName).
Local Abbreviation turn := (main.turn FormatFloat Getenv streamName).
Local Abbreviation no_RuntimeDone q :=
  (forallb (fun evt : Event => negb (notions.is_RuntimeDone evt)) q = true).

(** [case server.FunctionEvent] in three cases: a valid directive sets the
    group, another line that matches the marker changes nothing, a line that
    does not match is appended. *)
Lemma case_FunctionEvent_cases (v : string) (l : main.Locals) :
  main.case_FunctionEvent v l =
  match directive (server.Function v) with
  | Some g => {| main.buffer := main.buffer l; main.logGroupName := g |}
  | None =>
      match regexp.FindStringSubmatch v with
      | [] => main.append l v
      | _ => l
      end
  end.
Proof.
  unfold main.case_FunctionEvent, notions.directive.
  destruct (FindStringSubmatch_shape v) as [-> | [payload ->]]; [reflexivity |].
  cbn [length Nat.ltb Nat.leb nth].
  destruct (json.unmarshal payload) as [action [e |]]; [reflexivity |].
  destruct (main.Action.Action action =? "log.split")%string; [| reflexivity].
  cbn [negb].
  destruct (json.unmarshal (main.Action.Properties action)) as [props [e |]]; reflexivity.
Qed.

Lemma accumulate_group (r : server.Record_ float64) (l : main.Locals) :
  main.logGroupName (accumulate r l) =
  match directive r with
  | Some g => g
  | None => main.logGroupName l
  end.
Proof.
  destruct r as [v | v | v | v | v]; try reflexivity.
  cbn [main.accumulate]. rewrite case_FunctionEvent_cases.
  destruct (directive (server.Function v)); [reflexivity |].
  destruct (regexp.FindStringSubmatch v); reflexivity.
Qed.

(** The buffer after an event depends on the buffer before it, not on the
    group. *)
Lemma accumulate_buffer (r : server.Record_ float64) (l1 l2 : main.Locals) :
  main.buffer l1 = main.buffer l2 ->
  main.buffer (accumulate r l1) = main.buffer (accumulate r l2).
Proof.
  intros H. destruct r as [v | v | v | v | v]; cbn [main.accumulate];
    unfold main.append; cbn [main.buffer]; rewrite ?H; try reflexivity.
  rewrite !case_FunctionEvent_cases.
  destruct (directive (server.Function v)); [exact H |].
  destruct (regexp.FindStringSubmatch v); unfold main.append; cbn [main.buffer];
    rewrite ?H; reflexivity.
Qed.

Lemma accumulated_buffer (q : list Event) :
  forall l1 l2 : main.Locals,
    main.buffer l1 = main.buffer l2 ->
    main.buffer (accumulated q l1) = main.buffer (accumulated q l2).
Proof.
  induction q as [| evt q IH]; intros l1 l2 H; [exact H |].
  apply IH. apply accumulate_buffer. exact H.
Qed.

Lemma accumulated_app (a b : list Event) (l : main.Locals) :
  accumulated (a ++ b) l = accumulated b (accumulated a l).
Proof. unfold notions.accumulated. apply fold_left_app. Qed.

Lemma accumulated_group (q : list Event) :
  forall l : main.Locals,
    main.logGroupName (accumulated q l) =
    match last_directive q with
    | Some g => g
    | None => main.logGroupName l
    end.
Proof.
  induction q as [| evt q IH]; intros l; [reflexivity |].
  change (accumulated (evt :: q) l)
    with (accumulated q (accumulate (server.Event.Record' evt) l)).
  rewrite IH. cbn [notions.last_directive].
  destruct (last_directive q); [reflexivity |].
  apply accumulate_group.
Qed.


Lemma last_directive_none (c : list Event) :
  (forall e, In e c -> directive (server.Event.Record' e) = None) ->
  last_directive c = None.
Proof.
  induction c as [| evt c IH]; intros H; [reflexivity |].
  cbn [notions.last_directive]. rewrite IH.
  - apply H. left. reflexivity.
  - intros e He. apply H. right. exact He.
Qed.

(** The range loop takes the events before the first [RuntimeDone] one by
    one. *)
Lemma range_Events_pre (fuel : nat) (closed : bool) (pre q : list Event) :
  no_RuntimeDone pre ->
  forall (l : main.Locals) (w : W),
    range_Events fuel closed (pre ++ q) l w =
    range_Events fuel closed q (accumulated pre l) w.
Proof.
  induction pre as [| evt pre IH]; intros Hpre l w; [reflexivity |].
  cbn [forallb] in Hpre. apply andb_prop in Hpre. destruct Hpre as [Hevt Hpre].
  unfold notions.is_RuntimeDone in Hevt.
  change (accumulated (evt :: pre) l)
    with (accumulated pre (accumulate (server.Event.Record' evt) l)).
  rewrite <- (IH Hpre).
  cbn [app main.range_Events].
  destruct (server.Event.Record' evt); try reflexivity. discriminate Hevt.
Qed.

Lemma LogEvents_of_Messages (b : list string) :
  forall w : W,
    map cloudwatchlogs.InputLogEvent.Message (fst (main.LogEvents_of b w)) = b.
Proof.
  induction b as [| m b IH]; intros w; [reflexivity |].
  cbn [main.LogEvents_of].
  destruct (time.UnixNano w) as [ns w1].
  specialize (IH w1). destruct (main.LogEvents_of b w1) as [evs w2].
  simpl in *. rewrite IH. reflexivity.
Qed.

(** What is handed to [PutLogEvents]: the buffer with the two lines added,
    for the group and the stream of the moment. *)
Lemma flush_input_spec (v : server.PlatformRuntimeDone.t float64)
  (l l' : main.Locals) (w w1 : W) (put : cloudwatchlogs.PutLogEventsInput.t) :
  flush_input v l w = (l', put, w1) ->
  l' = {| main.buffer := main.buffer l ++ [END_line v; REPORT_line v];
          main.logGroupName := main.logGroupName l |}
  /\ notions.Messages put = main.buffer l'
  /\ cloudwatchlogs.PutLogEventsInput.LogGroupName put = main.logGroupName l
  /\ cloudwatchlogs.PutLogEventsInput.LogStreamName put = streamName.
Proof.
  unfold main.flush_input, main.append. cbn [main.buffer main.logGroupName].
  rewrite <- app_assoc. cbn [app].
  pose proof (LogEvents_of_Messages (main.buffer l ++ [END_line v; REPORT_line v]) w) as HM.
  destruct (main.LogEvents_of (main.buffer l ++ [END_line v; REPORT_line v]) w)
    as [evs w2].
  intros H. injection H as <- <- <-.
  repeat split. exact HM.
Qed.

Lemma range_Events_RuntimeDone (fuel : nat) (closed : bool) (evt : Event)
  (v : server.PlatformRuntimeDone.t float64) (post : list Event)
  (l l' : main.Locals) (w w1 : W) (put : cloudwatchlogs.PutLogEventsInput.t) :
  server.Event.Record' evt = server.RuntimeDone v ->
  flush_input v l w = (l', put, w1) ->
  range_Events fuel closed (evt :: post) l w =
  (r <- put_loop fuel put (main.logGroupName l) w1 ;;
   Done {| main.rest := post; main.locals := l';
           main.world := fst r; main.calls := snd r |}).
Proof.
  intros Hevt Hflush.
  destruct (flush_input_spec v l l' w w1 put Hflush) as (Hl' & _).
  cbn [main.range_Events]. rewrite Hevt.
  unfold main.case_PlatformRuntimeDone. rewrite Hflush.
  replace (main.logGroupName l') with (main.logGroupName l) by (rewrite Hl'; reflexivity).
  destruct (put_loop fuel put (main.logGroupName l) w1) as [[w2 cs] | | |]; reflexivity.
Qed.

(** C1, as the code has it. A function log line that matches the marker and
    whose payload fails to decode, as an action or, for a [log.split]
    action, in its properties, is not appended: the buffer and the target
    group are both left as they were. *)
Theorem malformed_directive_is_dropped (v payload : string) (l : main.Locals) :
  regexp.FindStringSubmatch v = [(regexp.marker ++ payload)%string; payload] ->
  (snd (json.unmarshal payload : main.Action.t * option error) <> None
   \/ (main.Action.Action (fst (json.unmarshal payload : main.Action.t * option error))
       = "log.split"%string
       /\ snd (json.unmarshal
                 (main.Action.Properties
                    (fst (json.unmarshal payload : main.Action.t * option error)))
               : main.LogSplitAction.t * option error) <> None)) ->
  main.case_FunctionEvent v l = l.
Proof.
  intros Hm Hfail. unfold main.case_FunctionEvent. rewrite Hm.
  cbn [length Nat.ltb Nat.leb nth].
  destruct (json.unmarshal payload) as [action [e |]]; [reflexivity |].
  cbn [fst snd] in Hfail.
  destruct Hfail as [Hfail | [Hact Hfail]]; [contradiction Hfail; reflexivity |].
  rewrite Hact. cbn.
  destruct (json.unmarshal (main.Action.Properties action)) as [props [e |]];
    [reflexivity |].
  contradiction Hfail. reflexivity.
Qed.

(** C9. A function log line that matches the marker and decodes to a
    [log.split] action whose properties decode is consumed into the target
    group and appends nothing; the messages handed to the flush are those of
    the invocation with the directive event taken out. *)
Theorem directive_is_consumed (v payload : string) (action : main.Action.t)
  (props : main.LogSplitAction.t) (l : main.Locals) :
  regexp.FindStringSubmatch v = [(regexp.marker ++ payload)%string; payload] ->
  json.unmarshal payload = (action, None) ->
  main.Action.Action action = "log.split"%string ->
  json.unmarshal (main.Action.Properties action) = (props, None) ->
  main.case_FunctionEvent v l =
    {| main.buffer := main.buffer l;
       main.logGroupName := main.LogSplitAction.LogGroupName props |}
  /\ forall (evt : Event) (pre mid : list Event)
            (rd : server.PlatformRuntimeDone.t float64) (l0 : main.Locals) (w : W),
       server.Event.Record' evt = server.Function v ->
       notions.Messages (snd (fst (flush_input rd (accumulated (pre ++ evt :: mid) l0) w)))
       = notions.Messages (snd (fst (flush_input rd (accumulated (pre ++ mid) l0) w))).
Proof.
  intros Hm Hact Hsplit Hprops.
  assert (Hstep : forall l1, main.case_FunctionEvent v l1 =
            {| main.buffer := main.buffer l1;
               main.logGroupName := main.LogSplitAction.LogGroupName props |}).
  { intros l1. unfold main.case_FunctionEvent. rewrite Hm.
    cbn [length Nat.ltb Nat.leb nth]. rewrite Hact, Hsplit. cbn. rewrite Hprops.
    reflexivity. }
  split; [apply Hstep |].
  intros evt pre mid rd l0 w Hevt.
  destruct (flush_input rd (accumulated (pre ++ evt :: mid) l0) w) as [[l1 put1] w1] eqn:F1.
  destruct (flush_input rd (accumulated (pre ++ mid) l0) w) as [[l2 put2] w2] eqn:F2.
  destruct (flush_input_spec _ _ _ _ _ _ F1) as (Hl1 & HM1 & _).
  destruct (flush_input_spec _ _ _ _ _ _ F2) as (Hl2 & HM2 & _).
  cbn [fst snd]. rewrite HM1, HM2, Hl1, Hl2. cbn [main.buffer]. f_equal.
  rewrite !accumulated_app.
  change (accumulated (evt :: mid) (accumulated pre l0))
    with (accumulated mid (accumulate (server.Event.Record' evt) (accumulated pre l0))).
  apply accumulated_buffer. rewrite Hevt. cbn [main.accumulate]. rewrite Hstep.
  reflexivity.
Qed.



(** C5. When the first put is refused for a missing destination and the put
    after the two creations succeeds, the sink makes one create-group call
    and one create-stream call and then one more put, and ends; whatever the
    two creations return, a conflict on an existing name included, is
    ignored. *)
Theorem missing_destination_created_then_one_retry (fuel : nat)
  (put : cloudwatchlogs.PutLogEventsInput.t) (g : string)
  (w w1 w2 w3 w4 : W) (eg es : option error) :
  let group := {| cloudwatchlogs.CreateLogGroupInput.LogGroupName := g |} in
  let stream := {| cloudwatchlogs.CreateLogStreamInput.LogGroupName := g;
                   cloudwatchlogs.CreateLogStreamInput.LogStreamName := streamName |} in
  cloudwatchlogs.PutLogEvents put w = (w1, Some (APIError "ResourceNotFoundException")) ->
  cloudwatchlogs.CreateLogGroup group w1 = (w2, eg) ->
  cloudwatchlogs.CreateLogStream stream w2 = (w3, es) ->
  cloudwatchlogs.PutLogEvents put w3 = (w4, None) ->
  put_loop (S (S fuel)) put g w =
  Done (w4, [main.CallPutLogEvents put; main.CallCreateLogGroup group;
             main.CallCreateLogStream stream; main.CallPutLogEvents put]).
Proof.
  intros group stream H1 Hg Hs H2.
  cbn [main.put_loop]. rewrite H1. cbn [main.is_ResourceNotFound String.eqb].
  change ("ResourceNotFoundException" =? "ResourceNotFoundException")%string with true.
  cbv iota. fold group stream. rewrite Hg, Hs, H2. reflexivity.
Qed.

(** C8, as the code has it. On a [Shutdown] lifecycle event the loop returns,
    so the process exits; the listener's [Shutdown] is not called: the
    server handle and the queue are left as they were, and no call is made
    on the log store. *)
Theorem Shutdown_event_returns_leaving_listener (fuel : nat)
  (res : extension.NextEventResponse.t) (st : main.State) :
  extension.NextEventResponse.EventType_ res = extension.Shutdown ->
  turn fuel false (res, None) st =
  Done ({| main.globals := main.globals st;
           main.vars := {| main.buffer := []; main.logGroupName := EmptyString |};
           main.env := main.env st;
           main.trace := main.trace st |},
        main.Return_).
Proof.
  intros H. unfold main.turn. cbn [fst snd]. rewrite H. reflexivity.
Qed.


End MainProperties.

(** ** The properties at work on the telemetry of [example] *)

Import decode cloud.
Local Open Scope list_scope.




Lemma malformed_directive_is_dropped_witness :
  regexp.FindStringSubmatch example.malformed_line = ["::sst::{oops"%string; "{oops"%string]
  /\ main.case_FunctionEvent example.malformed_line example.locals1 = example.locals1.
Proof.
  split; [reflexivity |].
  apply (malformed_directive_is_dropped example.malformed_line "{oops" example.locals1);
    [reflexivity | left; vm_compute; discriminate].
Defined.

(** C1 refuted as stated: the line whose payload fails to decode is not
    appended. *)
Lemma malformed_directive_not_appended :
  regexp.FindStringSubmatch example.malformed_line = ["::sst::{oops"%string; "{oops"%string]
  /\ snd (json.unmarshal "{oops" : main.Action.t * option error)
     = Some (SyntaxError "invalid JSON text")
  /\ main.case_FunctionEvent example.malformed_line example.locals1
     <> {| main.buffer := main.buffer example.locals1 ++ [example.malformed_line];
           main.logGroupName := main.logGroupName example.locals1 |}.
Proof.
  split; [reflexivity |]. split; [vm_compute; reflexivity |].
  vm_compute. discriminate.
Qed.

Lemma directive_is_consumed_witness :
  main.case_FunctionEvent example.directive_line example.locals1 =
    {| main.buffer := ["hello"%string]; main.logGroupName := "/my/group" |}
  /\ forall (evt : server.Event.t float64) (pre mid : list (server.Event.t float64))
            (rd : server.PlatformRuntimeDone.t float64) (l0 : main.Locals) (w : cloud.t),
       server.Event.Record' evt = server.Function example.directive_line ->
       notions.Messages
         (snd (fst (main.flush_input FormatFloat example.Getenv example.streamName rd
                      (notions.accumulated FormatFloat (pre ++ evt :: mid) l0) w)))
       = notions.Messages
           (snd (fst (main.flush_input FormatFloat example.Getenv example.streamName rd
                        (notions.accumulated FormatFloat (pre ++ mid) l0) w))).
Proof.
  apply (directive_is_consumed FormatFloat example.Getenv example.streamName
           example.directive_line
           (example.dq "{'action':'log.split','properties':{'logGroupName':'/my/group'}}")
           {| main.Action.Action := "log.split";
              main.Action.Properties := example.dq "{'logGroupName':'/my/group'}" |}
           {| main.LogSplitAction.LogGroupName := "/my/group" |}
           example.locals1);
    vm_compute; reflexivity.
Defined.



Lemma missing_destination_created_then_one_retry_witness :
  exists w4 : cloud.t,
    cloudwatchlogs.PutLogEvents example.put1 example.world1 = (example.world1, cloud.NotFound)
    /\ cloudwatchlogs.CreateLogGroup
         {| cloudwatchlogs.CreateLogGroupInput.LogGroupName := "/my/group" |} example.world1
       = (example.world1, cloud.AlreadyExists)
    /\ main.put_loop example.streamName 2 example.put1 "/my/group" example.world1
       = Done (w4,
               [main.CallPutLogEvents example.put1;
                main.CallCreateLogGroup
                  {| cloudwatchlogs.CreateLogGroupInput.LogGroupName := "/my/group" |};
                main.CallCreateLogStream
                  {| cloudwatchlogs.CreateLogStreamInput.LogGroupName := "/my/group";
                     cloudwatchlogs.CreateLogStreamInput.LogStreamName := example.streamName |};
                main.CallPutLogEvents example.put1]).
Proof.
  eexists. split; [reflexivity |]. split; [reflexivity |].
  eapply (missing_destination_created_then_one_retry example.streamName 0 example.put1
            "/my/group" example.world1 example.world1 example.world1);
    vm_compute; reflexivity.
Defined.

Lemma Shutdown_event_returns_leaving_listener_witness :
  main.turn FormatFloat example.Getenv example.streamName 2 false
    (example.response "SHUTDOWN" "r1", None) (example.state0 [example.fn "t6" "late"])
  = Done (example.state0 [example.fn "t6" "late"], main.Return_).
Proof.
  apply (Shutdown_event_returns_leaving_listener FormatFloat example.Getenv
           example.streamName 2 (example.response "SHUTDOWN" "r1")
           (example.state0 [example.fn "t6" "late"])).
  reflexivity.
Defined.

(** C8 refuted as stated: after the [Shutdown] event the globals are not
    those a call of the listener's [Shutdown] leaves, whatever its graceful
    shutdown returned. *)
Lemma Shutdown_event_does_not_stop_listener :
  ~ (exists (err : option error) (lg : server.Log) (st' : main.State),
       main.turn FormatFloat example.Getenv example.streamName 2 false
         (example.response "SHUTDOWN" "r1", None) (example.state0 [])
       = Done (st', main.Return_)
       /\ server.Shutdown err (main.globals (example.state0 []))
          = Done (main.globals st', lg)).
Proof.
  intros (err & lg & st' & Hturn & Hshut).
  vm_compute in Hturn. injection Hturn as <-.
  destruct err; vm_compute in Hshut; discriminate Hshut.
Qed.


(** The scenario of one invocation end to end: the batch posted to the
    listener, then one turn of the loop on an [Invoke]: four messages go to
    the group the directive names, after the group and the stream were
    created, and the event behind the [RuntimeDone] stays in the queue. *)
Example one_invocation_end_to_end :
  exists (hst : server.HState) (ch : chan.t (server.Event.t float64)) (st' : main.State),
    server.handler (example.body, None) example.hstate0 = Done hst
    /\ server.events hst = Some ch
    /\ main.turn FormatFloat example.Getenv example.streamName 2 false
         (example.response "INVOKE" "r1", None) (example.state0 (chan.buf ch))
       = Done (st', main.Again)
    /\ main.vars st' =
       {| main.buffer :=
            ["START RequestId: r1 Version: $LATEST"%string; "hello"%string;
             "END RequestId: r1"%string;
             ("REPORT RequestId: r1" ++ TAB ++ "Duration: 12.3 ms" ++ TAB
              ++ "Billed Duration: 12.3 ms" ++ TAB ++ "Memory Size: 128 MB" ++ TAB
              ++ "Max Memory Used: 0 MB")%string];
          main.logGroupName := "/my/group" |}
    /\ map (fun c => match c with
                     | main.CallPutLogEvents input =>
                         ("put", cloudwatchlogs.PutLogEventsInput.LogGroupName input)
                     | main.CallCreateLogGroup input =>
                         ("create-group", cloudwatchlogs.CreateLogGroupInput.LogGroupName input)
                     | main.CallCreateLogStream input =>
                         ("create-stream",
                          cloudwatchlogs.CreateLogStreamInput.LogGroupName input)
                     end%string) (main.trace st')
       = [("put", "/my/group"); ("create-group", "/my/group");
          ("create-stream", "/my/group"); ("put", "/my/group")]%string
    /\ option_map (@chan.buf _) (server.Events (main.globals st'))
       = Some [example.fn "t6" "late"].
Proof.
  do 3 eexists. split; [vm_compute; reflexivity |].
  split; [reflexivity |].
  split; [vm_compute; reflexivity |].
  repeat split.
Qed.

(** * Further properties *)

(** ** The marker pattern *)

Lemma strip_spec (p s rest : string) :
  regexp.strip p s = Some rest -> s = (p ++ rest)%string.
Proof.
  revert s. induction p as [| a p IH]; intros s H; simpl in *.
  - injection H as <-. reflexivity.
  - destruct s as [| b s]; [discriminate H |].
    destruct (Ascii.eqb_spec a b) as [<- | ?]; [| discriminate H].
    rewrite (IH s H). reflexivity.
Qed.

Lemma strip_app (p rest : string) : regexp.strip p (p ++ rest) = Some rest.
Proof.
  induction p as [| a p IH]; simpl; [reflexivity |].
  rewrite Ascii.eqb_refl. exact IH.
Qed.

Lemma dots_spec (s : string) :
  flow.has_LF (regexp.dots s) = false
  /\ exists after : string,
      s = (regexp.dots s ++ after)%string
      /\ (after = EmptyString \/ exists r, after = String LF r).
Proof.
  induction s as [| c s (IH1 & after & IH2 & IH3)]; simpl.
  - split; [reflexivity |]. exists EmptyString. split; [reflexivity | left; reflexivity].
  - destruct (Ascii.eqb_spec c LF) as [-> | Hc]; simpl.
    + split; [reflexivity |]. exists (String LF s). split; [reflexivity |].
      right. exists s. reflexivity.
    + split.
      * destruct (Ascii.eqb_spec c LF) as [? | _]; [contradiction | exact IH1].
      * exists after. split; [rewrite <- IH2; reflexivity | exact IH3].
Qed.

(** X1. A match of the marker pattern is the marker and its group; the group
    is not empty and holds no line feed; the line is some text, the marker,
    the group, and then nothing or a line feed and more text: the group runs
    to the end of the marker's line, and what stands before the marker plays
    no part. *)
Theorem FindStringSubmatch_sound (s whole group : string) :
  regexp.FindStringSubmatch s = [whole; group] ->
  whole = (regexp.marker ++ group)%string
  /\ group <> EmptyString
  /\ flow.has_LF group = false
  /\ exists before after : string,
      s = (before ++ regexp.marker ++ group ++ after)%string
      /\ (after = EmptyString \/ exists r, after = String LF r).
Proof.
  induction s as [| c s IH]; [discriminate |].
  cbn [regexp.FindStringSubmatch].
  destruct (regexp.strip regexp.marker (String c s)) as [rest |] eqn:Hs.
  - destruct (regexp.dots rest) as [| d ds] eqn:Hd.
    + intros H. destruct (IH H) as (Hw & Hg & Hlf & before & after & Heq & Hafter).
      repeat split; try assumption.
      exists (String c before), after. split; [rewrite Heq; reflexivity | exact Hafter].
    + intros H. injection H as <- <-.
      destruct (dots_spec rest) as (Hlf & after & Heq & Hafter). rewrite Hd in *.
      repeat split; [discriminate | exact Hlf |].
      exists EmptyString, after. split; [| exact Hafter].
      rewrite (strip_spec _ _ _ Hs). simpl. rewrite Heq at 1. reflexivity.
  - intros H. destruct (IH H) as (Hw & Hg & Hlf & before & after & Heq & Hafter).
    repeat split; try assumption.
    exists (String c before), after. split; [rewrite Heq; reflexivity | exact Hafter].
Qed.

Lemma FindStringSubmatch_sound_witness :
  exists before after : string,
    ("INFO ::sst::{} trailing" ++ String LF "next line")%string
    = (before ++ regexp.marker ++ "{} trailing" ++ after)%string
    /\ (after = EmptyString \/ exists r, after = String LF r).
Proof.
  destruct (FindStringSubmatch_sound
              ("INFO ::sst::{} trailing" ++ String LF "next line")
              "::sst::{} trailing" "{} trailing" eq_refl)
    as (_ & _ & _ & H).
  exact H.
Defined.

(** X2. A line that holds the marker followed by a character other than a
    line feed matches the pattern, wherever in the line the marker stands. *)
Theorem FindStringSubmatch_complete (before after : string) (c : ascii) :
  c <> LF ->
  regexp.FindStringSubmatch (before ++ regexp.marker ++ String c after) <> [].
Proof.
  intros Hc. induction before as [| a before IH].
  - change (EmptyString ++ regexp.marker ++ String c after)%string
      with (String ":" (":sst::" ++ String c after))%string.
    cbn [regexp.FindStringSubmatch].
    change (String ":" (":sst::" ++ String c after))%string
      with (regexp.marker ++ String c after)%string.
    rewrite strip_app. cbn [regexp.dots].
    destruct (Ascii.eqb_spec c LF) as [? | _]; [contradiction | discriminate].
  - change (String a before ++ regexp.marker ++ String c after)%string
      with (String a (before ++ regexp.marker ++ String c after)).
    cbn [regexp.FindStringSubmatch].
    destruct (regexp.strip regexp.marker
                (String a (before ++ regexp.marker ++ String c after))) as [rest |];
      [| exact IH].
    destruct (regexp.dots rest); [exact IH | discriminate].
Qed.

Lemma FindStringSubmatch_complete_witness :
  regexp.FindStringSubmatch ("2026-11-01 INFO " ++ regexp.marker ++ String "{" "}") <> [].
Proof.
  apply (FindStringSubmatch_complete "2026-11-01 INFO " "}" "{"). discriminate.
Defined.

(** ** The listener, further *)

Section ListenerMore.
Context {float64 : Type}.
Context {U_initStart : json.Unmarshal server.PlatformInitStartEvent.t}
        {U_string : json.Unmarshal string}
        {U_start : json.Unmarshal server.PlatformStartEvent.t}
        {U_report : json.Unmarshal (server.PlatformReportEvent.t float64)}
        {U_runtimeDone : json.Unmarshal (server.PlatformRuntimeDone.t float64)}.

Local Open Scope list_scope.

Local Abbreviation Event := (server.Event.t float64).
Local Abbreviation is_recognized :=
  (fun evt : server.UnknownEvent.t => notions.recognized (server.UnknownEvent.Type_ evt)).

(** An envelope with a tag that is not recognized leaves the queue alone,
    whatever state the queue is in. *)
Lemma dispatch_unrecognized (st : server.HState) (evt : server.UnknownEvent.t) :
  is_recognized evt = false ->
  server.dispatch st evt =
  Done {| server.events := server.events st;
          server.log := server.log st ++ notions.printed evt |}.
Proof.
  destruct st as [ev lg], evt as [time ty raw]; simpl.
  unfold server.dispatch, notions.printed, notions.recognized; simpl.
  repeat match goal with
         | |- context [String.eqb ty ?k] =>
             destruct (String.eqb_spec ty k) as [-> | ?]; simpl
         end;
    intros H; try discriminate H; rewrite ?app_nil_r; reflexivity.
Qed.


(** X4. Once the queue is closed, a batch that holds an envelope of a
    recognized type makes the handler panic on its send; a batch that holds
    none is processed to its end, printing its lines and leaving the queue
    as it is. *)
Theorem closed_queue_batch (slice : list server.UnknownEvent.t)
  (st : server.HState) (ch : chan.t Event) :
  server.events st = Some ch ->
  chan.closed ch = true ->
  server.range_slice slice st =
  if existsb is_recognized slice then Panic "send on closed channel"
  else Done {| server.events := server.events st;
               server.log := server.log st ++ flat_map notions.printed slice |}.
Proof.
  revert st. induction slice as [| evt slice IH]; intros st Hev Hcl.
  - simpl. rewrite app_nil_r. destruct st; reflexivity.
  - cbn [server.range_slice existsb flat_map].
    destruct (is_recognized evt) eqn:R.
    + rewrite (dispatch_closed st ch evt Hev Hcl R). reflexivity.
    + rewrite (dispatch_unrecognized st evt R). cbn [bind orb].
      rewrite IH by assumption. cbn [server.events server.log].
      rewrite app_assoc. reflexivity.
Qed.

Lemma Shutdowns_stopped (errs : list (option error))
  (ev : option (chan.t Event)) :
  flow.Shutdowns errs {| server.httpServer := None; server.Events := ev |}
  = Done ({| server.httpServer := None; server.Events := ev |}, []).
Proof.
  induction errs as [| e errs IH]; [reflexivity |].
  cbn [flow.Shutdowns server.Shutdown server.httpServer bind fst snd].
  rewrite IH. reflexivity.
Qed.

(** X5. Any number of calls of [Shutdown] on a started listener, by what
    the graceful shutdown of the first returns: when it succeeds, the first
    call stops the server and closes the queue, and every later call does
    nothing; when it fails, the first call still closes the queue and a
    second call panics.  The events waiting in the queue stay in it. *)
Theorem Shutdowns_outcome (errs : list (option error))
  (srv : server.http_Server.t) (q : list Event) :
  let closed := Some {| chan.closed := true; chan.buf := q |} in
  flow.Shutdowns errs
    {| server.httpServer := Some srv;
       server.Events := Some {| chan.closed := false; chan.buf := q |} |}
  = match errs with
    | [] =>
        Done ({| server.httpServer := Some srv;
                 server.Events := Some {| chan.closed := false; chan.buf := q |} |}, [])
    | None :: _ => Done ({| server.httpServer := None; server.Events := closed |}, [])
    | [Some _] =>
        Done ({| server.httpServer := Some srv; server.Events := closed |},
              ["[listener:Shutdown] Failed to shutdown http server gracefully:"%string])
    | Some _ :: _ :: _ => Panic "close of closed channel"
    end.
Proof.
  destruct errs as [| [e |] errs]; [reflexivity | |].
  - destruct errs as [| e2 errs]; reflexivity.
  - cbn [flow.Shutdowns server.Shutdown server.httpServer server.Events chan.close
           chan.closed chan.buf bind fst snd].
    rewrite Shutdowns_stopped. reflexivity.
Qed.

End ListenerMore.

(** ** The invocation loop, further *)

Section MainMore.
Context {float64 : Type}.
Variable FormatFloat : float64 -> string.
Context {U_action : json.Unmarshal main.Action.t}
        {U_logSplit : json.Unmarshal main.LogSplitAction.t}.
Context {W : Type} {client : cloudwatchlogs.Client W} {clock : time.Clock W}.
Variable Getenv : string -> string.
Variable streamName : string.

Local Open Scope list_scope.

Local Abbreviation Event := (server.Event.t float64).
Local Abbreviation directive := (@notions.directive float64 _ _).
Local Abbreviation accumulate := (main.accumulate FormatFloat).
Local Abbreviation accumulated := (notions.accumulated FormatFloat).
Local Abbreviation END_line := (main.END_line FormatFloat).
Local Abbreviation REPORT_line := (main.REPORT_line FormatFloat Getenv).
Local Abbreviation flush_input := (main.flush_input FormatFloat Getenv streamName).
Local Abbreviation put_loop := (main.put_loop streamName).
Local Abbreviation range_Events := (main.range_Events FormatFloat Getenv streamName).
Local Abbreviation turn := (main.turn FormatFloat Getenv streamName).
Local Abbreviation no_RuntimeDone q :=
  (forallb (fun evt : Event => negb (notions.is_RuntimeDone evt)) q = true).
Local Abbreviation reset := {| main.buffer := []; main.logGroupName := EmptyString |}.
Local Abbreviation lines_of q :=
  (flat_map (fun evt : Event => flow.lines (server.Event.Record' evt)) q).

Lemma directive_matches (v g : string) :
  directive (server.Function v) = Some g ->
  exists whole group, regexp.FindStringSubmatch v = [whole; group].
Proof.
  unfold notions.directive.
  destruct (FindStringSubmatch_shape v) as [-> | [payload ->]]; [discriminate |].
  intros _. eexists. eexists. reflexivity.
Qed.

Lemma accumulate_lines (r : server.Record_ float64) (l : main.Locals) :
  main.buffer (accumulate r l) = main.buffer l ++ flow.lines r.
Proof.
  destruct r as [v | v | v | v | v]; cbn [main.accumulate flow.lines].
  - unfold main.append. cbn. rewrite append_empty_r. reflexivity.
  - rewrite (case_FunctionEvent_cases (float64 := float64) v l).
    destruct (directive (server.Function v)) as [g |] eqn:D.
    + destruct (directive_matches v g D) as (whole & group & ->).
      cbn. rewrite app_nil_r. reflexivity.
    + destruct (regexp.FindStringSubmatch v); cbn; rewrite ?app_nil_r; reflexivity.
  - unfold main.append. cbn. rewrite append_empty_r. reflexivity.
  - rewrite app_nil_r. reflexivity.
  - rewrite app_nil_r. reflexivity.
Qed.

Lemma accumulated_lines (q : list Event) (l : main.Locals) :
  main.buffer (accumulated q l) = main.buffer l ++ lines_of q.
Proof.
  revert l. induction q as [| evt q IH]; intros l.
  - simpl. rewrite app_nil_r. reflexivity.
  - change (accumulated (evt :: q) l)
      with (accumulated q (accumulate (server.Event.Record' evt) l)).
    rewrite IH, accumulate_lines. cbn [flat_map]. rewrite app_assoc. reflexivity.
Qed.

(** X6. The buffer after a run of events is the buffer before it followed
    by the line of each event that has one, in the order of the events:
    lines are only added, at the end, and a line once added is neither
    changed nor moved. *)
Theorem buffer_is_lines_in_order (q : list Event) (l : main.Locals) :
  main.buffer (accumulated q l) = main.buffer l ++ lines_of q.
Proof.
  revert l. induction q as [| evt q IH]; intros l.
  - cbn [flat_map notions.accumulated fold_left]. rewrite app_nil_r. reflexivity.
  - change (accumulated (evt :: q) l)
      with (accumulated q (accumulate (server.Event.Record' evt) l)).
    rewrite IH, accumulate_lines. cbn [flat_map]. rewrite <- app_assoc. reflexivity.
Qed.

(** One turn on an [Invoke] whose queue holds a [RuntimeDone]. *)
Lemma turn_Invoke_at_RuntimeDone (fuel : nat) (res : extension.NextEventResponse.t)
  (st : main.State) (ch : chan.t Event) (pre post : list Event) (evt : Event)
  (v : server.PlatformRuntimeDone.t float64)
  (l' : main.Locals) (put : cloudwatchlogs.PutLogEventsInput.t) (w1 : W) :
  extension.NextEventResponse.EventType_ res = extension.Invoke ->
  server.Events (main.globals st) = Some ch ->
  chan.buf ch = pre ++ evt :: post ->
  no_RuntimeDone pre ->
  server.Event.Record' evt = server.RuntimeDone v ->
  flush_input v (accumulated pre reset) (main.env st) = (l', put, w1) ->
  turn fuel false (res, None) st =
  (r <- put_loop fuel put (main.logGroupName l') w1 ;;
   Done ({| main.globals :=
              {| server.httpServer := server.httpServer (main.globals st);
                 server.Events :=
                   Some {| chan.closed := chan.closed ch; chan.buf := post |} |};
            main.vars := l';
            main.env := fst r;
            main.trace := main.trace st ++ snd r |},
         main.Again)).
Proof.
  intros H1 Hch Hbuf Hpre Hevt F.
  destruct (flush_input_spec _ _ _ _ _ _ _ _ _ F) as (Hl' & _).
  unfold main.turn. cbn [fst snd main.globals main.env main.trace]. rewrite H1.
  change (extension.Invoke =? extension.Invoke)%string with true. cbv iota.
  rewrite Hch, Hbuf.
  rewrite (range_Events_pre FormatFloat Getenv streamName fuel (chan.closed ch)
             pre (evt :: post) Hpre).
  rewrite (range_Events_RuntimeDone FormatFloat Getenv streamName fuel _ evt v post
             _ l' _ w1 put Hevt F).
  replace (main.logGroupName l') with (main.logGroupName (accumulated pre reset))
    by (rewrite Hl'; reflexivity).
  destruct (put_loop fuel put (main.logGroupName (accumulated pre reset)) w1)
    as [[w2 cs] | | |]; reflexivity.
Qed.

(** X7. When no event taken before the [RuntimeDone] is a valid directive,
    the flush goes to the group whose name is the empty string: the loop
    has no default group of its own. *)
Theorem no_directive_flushes_to_empty_group (fuel : nat)
  (res : extension.NextEventResponse.t) (st : main.State) (ch : chan.t Event)
  (pre post : list Event) (evt : Event) (v : server.PlatformRuntimeDone.t float64) :
  extension.NextEventResponse.EventType_ res = extension.Invoke ->
  server.Events (main.globals st) = Some ch ->
  chan.buf ch = pre ++ evt :: post ->
  no_RuntimeDone pre ->
  server.Event.Record' evt = server.RuntimeDone v ->
  (forall e, In e pre -> directive (server.Event.Record' e) = None) ->
  exists (l' : main.Locals) (put : cloudwatchlogs.PutLogEventsInput.t) (w1 : W),
    flush_input v (accumulated pre reset) (main.env st) = (l', put, w1)
    /\ cloudwatchlogs.PutLogEventsInput.LogGroupName put = EmptyString
    /\ turn fuel false (res, None) st =
       (r <- put_loop fuel put EmptyString w1 ;;
        Done ({| main.globals :=
                   {| server.httpServer := server.httpServer (main.globals st);
                      server.Events :=
                        Some {| chan.closed := chan.closed ch; chan.buf := post |} |};
                 main.vars := l';
                 main.env := fst r;
                 main.trace := main.trace st ++ snd r |},
              main.Again)).
Proof.
  intros H1 Hch Hbuf Hpre Hevt Hnone.
  destruct (flush_input v (accumulated pre reset) (main.env st)) as [[l' put] w1] eqn:F.
  exists l', put, w1. split; [reflexivity |].
  destruct (flush_input_spec _ _ _ _ _ _ _ _ _ F) as (Hl' & _ & HG & _).
  assert (Hg : main.logGroupName (accumulated pre reset) = EmptyString).
  { rewrite accumulated_group, (last_directive_none pre Hnone). reflexivity. }
  split; [rewrite HG; exact Hg |].
  rewrite (turn_Invoke_at_RuntimeDone fuel res st ch pre post evt v l' put w1
             H1 Hch Hbuf Hpre Hevt F).
  replace (main.logGroupName l') with EmptyString by (rewrite Hl'; symmetry; exact Hg).
  reflexivity.
Qed.

(** X8. A turn that gets a lifecycle event starts from an empty buffer and
    an empty group: its outcome does not depend on the buffer and the group
    the turn before left. *)
Theorem turn_forgets_previous_locals (fuel : nat)
  (next : extension.NextEventResponse.t * option error) (st : main.State)
  (l : main.Locals) :
  snd next = None ->
  turn fuel false next st =
  turn fuel false next
    {| main.globals := main.globals st; main.vars := l;
       main.env := main.env st; main.trace := main.trace st |}.
Proof.
  intros H. unfold main.turn. rewrite H. reflexivity.
Qed.

Lemma put_loop_outcome (fuel : nat) (put : cloudwatchlogs.PutLogEventsInput.t)
  (g : string) (w : W) :
  (exists r, put_loop fuel put g w = Done r) \/ put_loop fuel put g w = OutOfFuel.
Proof.
  revert w. induction fuel as [| fuel IH]; intros w; [right; reflexivity |].
  cbn [main.put_loop].
  destruct (cloudwatchlogs.PutLogEvents put w) as [w1 err].
  destruct (main.is_ResourceNotFound err); [| left; eexists; reflexivity].
  destruct (cloudwatchlogs.CreateLogGroup _ w1) as [w2 eg].
  destruct (cloudwatchlogs.CreateLogStream _ w2) as [w3 es].
  destruct (IH w3) as [[r ->] | ->]; [left; eexists; reflexivity | right; reflexivity].
Qed.

(** X9. When the put loop ends, its calls are some number of rounds of a
    put, a create-group and a create-stream, then one last put: every call
    puts the same input, a creation is never made before a put was refused,
    and the last call is a put. *)
Theorem put_loop_calls_shape (fuel : nat) (put : cloudwatchlogs.PutLogEventsInput.t)
  (g : string) (w w' : W) (cs : list main.Call) :
  put_loop fuel put g w = Done (w', cs) ->
  exists k : nat,
    (k < fuel)%nat
    /\ cs = flow.retries k put
              {| cloudwatchlogs.CreateLogGroupInput.LogGroupName := g |}
              {| cloudwatchlogs.CreateLogStreamInput.LogGroupName := g;
                 cloudwatchlogs.CreateLogStreamInput.LogStreamName := streamName |}.
Proof.
  revert w w' cs. induction fuel as [| fuel IH]; intros w w' cs; [discriminate |].
  cbn [main.put_loop].
  destruct (cloudwatchlogs.PutLogEvents put w) as [w1 err].
  destruct (main.is_ResourceNotFound err).
  - destruct (cloudwatchlogs.CreateLogGroup _ w1) as [w2 eg].
    destruct (cloudwatchlogs.CreateLogStream _ w2) as [w3 es].
    destruct (put_loop fuel put g w3) as [[w4 cs4] | | |] eqn:E; try discriminate.
    cbn [bind fst snd]. intros H. injection H as <- <-.
    destruct (IH w3 w4 cs4 E) as (k & Hk & ->).
    exists (S k). split; [lia | reflexivity].
  - intros H. injection H as <- <-. exists O. split; [lia | reflexivity].
Qed.

(** X10. While every put is refused for a missing destination, as it is
    when the creations fail, the put loop does not end: whatever the number
    of puts allowed, it is still running when they are used up. *)
Theorem put_loop_spins_while_missing (I : W -> Prop)
  (put : cloudwatchlogs.PutLogEventsInput.t) (g : string) :
  (forall w, I w ->
     main.is_ResourceNotFound (snd (cloudwatchlogs.PutLogEvents put w)) = true
     /\ I (fst (cloudwatchlogs.PutLogEvents put w))) ->
  (forall w input, I w -> I (fst (cloudwatchlogs.CreateLogGroup input w))) ->
  (forall w input, I w -> I (fst (cloudwatchlogs.CreateLogStream input w))) ->
  forall (fuel : nat) (w : W), I w -> put_loop fuel put g w = OutOfFuel.
Proof.
  intros Hput Hgroup Hstream fuel.
  induction fuel as [| fuel IH]; intros w Hw; [reflexivity |].
  cbn [main.put_loop].
  destruct (Hput w Hw) as [Hnf Hw1].
  destruct (cloudwatchlogs.PutLogEvents put w) as [w1 err]. cbn [fst snd] in *.
  rewrite Hnf.
  pose proof (Hgroup w1 {| cloudwatchlogs.CreateLogGroupInput.LogGroupName := g |} Hw1)
    as Hw2.
  destruct (cloudwatchlogs.CreateLogGroup _ w1) as [w2 eg]. cbn [fst] in Hw2.
  pose proof (Hstream w2
                {| cloudwatchlogs.CreateLogStreamInput.LogGroupName := g;
                   cloudwatchlogs.CreateLogStreamInput.LogStreamName := streamName |} Hw2)
    as Hw3.
  destruct (cloudwatchlogs.CreateLogStream _ w2) as [w3 es]. cbn [fst] in Hw3.
  rewrite (IH w3 Hw3). reflexivity.
Qed.


Lemma range_Events_no_RuntimeDone (fuel : nat) (closed : bool) (q : list Event)
  (l : main.Locals) (w : W) :
  no_RuntimeDone q ->
  range_Events fuel closed q l w =
  if closed
  then Done {| main.rest := []; main.locals := accumulated q l;
               main.world := w; main.calls := [] |}
  else Blocked.
Proof.
  intros Hq. rewrite <- (app_nil_r q) at 1.
  rewrite (range_Events_pre FormatFloat Getenv streamName fuel closed q [] Hq).
  reflexivity.
Qed.

(** X12. A turn on an [Invoke] whose queue holds no [RuntimeDone]: when the
    queue is closed, the turn takes every event, makes no call on the log
    store and goes on, so the lines gathered are never flushed; when the
    queue is open, the turn stays parked on it. *)
Theorem no_RuntimeDone_no_flush (fuel : nat) (res : extension.NextEventResponse.t)
  (st : main.State) (ch : chan.t Event) :
  extension.NextEventResponse.EventType_ res = extension.Invoke ->
  server.Events (main.globals st) = Some ch ->
  no_RuntimeDone (chan.buf ch) ->
  turn fuel false (res, None) st =
  if chan.closed ch
  then Done ({| main.globals :=
                  {| server.httpServer := server.httpServer (main.globals st);
                     server.Events := Some {| chan.closed := true; chan.buf := [] |} |};
                main.vars := accumulated (chan.buf ch) reset;
                main.env := main.env st;
                main.trace := main.trace st |},
             main.Again)
  else Blocked.
Proof.
  intros H1 Hch Hq.
  unfold main.turn. cbn [fst snd main.globals main.env main.trace]. rewrite H1.
  change (extension.Invoke =? extension.Invoke)%string with true. cbv iota.
  rewrite Hch, (range_Events_no_RuntimeDone fuel (chan.closed ch) (chan.buf ch) _ _ Hq).
  destruct (chan.closed ch); [| reflexivity].
  cbn. rewrite app_nil_r. reflexivity.
Qed.

Lemma range_Events_outcome (fuel : nat) (closed : bool) (q : list Event) :
  forall (l : main.Locals) (w : W),
    match range_Events fuel closed q l w with
    | Done r => exists taken, q = taken ++ main.rest r
    | Panic _ => False
    | Blocked => closed = false /\ no_RuntimeDone q
    | OutOfFuel => True
    end.
Proof.
  induction q as [| evt q IH]; intros l w.
  - cbn [main.range_Events]. destruct closed.
    + exists []. reflexivity.
    + split; reflexivity.
  - cbn [main.range_Events forallb].
    unfold notions.is_RuntimeDone at 1.
    destruct (server.Event.Record' evt) as [v | v | v | v | v] eqn:R;
      try (specialize (IH (accumulate (server.Event.Record' evt) l) w);
           rewrite R in IH;
           destruct (range_Events fuel closed q _ w) as [r | msg | |];
           [destruct IH as [taken ->]; exists (evt :: taken); reflexivity
           | exact IH | exact IH | exact I]).
    unfold main.case_PlatformRuntimeDone.
    destruct (flush_input v l w) as [[l' put] w1].
    destruct (put_loop_outcome fuel put (main.logGroupName l') w1) as [[r ->] | ->];
      cbn [bind main.rest]; [exists [evt]; reflexivity | exact I].
Qed.

(** X13. A turn never panics.  It stays parked only on an [Invoke], and
    then only when the queue was never made or when it is open and holds no
    [RuntimeDone]; on a closed queue a turn is never parked. *)
Theorem turn_never_panics (fuel : nat) (done : bool)
  (next : extension.NextEventResponse.t * option error) (st : main.State) :
  match turn fuel done next st with
  | Panic _ => False
  | Blocked =>
      done = false /\ snd next = None
      /\ extension.NextEventResponse.EventType_ (fst next) = extension.Invoke
      /\ match server.Events (main.globals st) with
         | None => True
         | Some ch => chan.closed ch = false /\ no_RuntimeDone (chan.buf ch)
         end
  | _ => True
  end.
Proof.
  unfold main.turn. destruct done; [exact I |].
  destruct (snd next); [exact I |].
  cbn [main.globals main.env main.trace].
  destruct (String.eqb_spec (extension.NextEventResponse.EventType_ (fst next))
              extension.Invoke) as [Hinv | _].
  - destruct (server.Events (main.globals st)) as [ch |]; [| repeat split; assumption].
    pose proof (range_Events_outcome fuel (chan.closed ch) (chan.buf ch) reset
                  (main.env st)) as H.
    destruct (range_Events fuel (chan.closed ch) (chan.buf ch) reset (main.env st))
      as [r | msg | |]; cbn [bind]; [exact I | exact H | | exact I].
    repeat split; try assumption; apply H.
  - destruct (extension.NextEventResponse.EventType_ (fst next) =? extension.Shutdown)%string;
      exact I.
Qed.

(** X14. Whatever a turn does, it leaves the server handle as it was and
    neither makes nor closes the queue; the events left in the queue are a
    tail of those that were in it, so events are only taken from the front,
    in order; and the calls on the log store are only added to. *)
Theorem turn_keeps_listener_and_takes_from_front (fuel : nat) (done : bool)
  (next : extension.NextEventResponse.t * option error)
  (st st' : main.State) (c : main.Control) :
  turn fuel done next st = Done (st', c) ->
  server.httpServer (main.globals st') = server.httpServer (main.globals st)
  /\ match server.Events (main.globals st), server.Events (main.globals st') with
     | Some ch, Some ch' =>
         chan.closed ch' = chan.closed ch
         /\ exists taken, chan.buf ch = taken ++ chan.buf ch'
     | None, None => True
     | _, _ => False
     end
  /\ exists new, main.trace st' = main.trace st ++ new.
Proof.
  assert (Hsame : forall s : @main.State float64 W,
            server.httpServer (main.globals s) = server.httpServer (main.globals s)
            /\ match server.Events (main.globals s), server.Events (main.globals s) with
               | Some ch, Some ch' =>
                   chan.closed ch' = chan.closed ch
                   /\ exists taken, chan.buf ch = taken ++ chan.buf ch'
               | None, None => True
               | _, _ => False
               end
            /\ exists new, main.trace s = main.trace s ++ new).
  { intros s. split; [reflexivity |]. split.
    - destruct (server.Events (main.globals s)); [| exact I].
      split; [reflexivity | exists []; reflexivity].
    - exists []. rewrite app_nil_r. reflexivity. }
  unfold main.turn. destruct done.
  { intros H. injection H as <- <-. apply Hsame. }
  destruct (snd next).
  { intros H. injection H as <- <-. apply Hsame. }
  cbn [main.globals main.env main.trace].
  destruct (extension.NextEventResponse.EventType_ (fst next) =? extension.Invoke)%string.
  - destruct (server.Events (main.globals st)) as [ch |] eqn:Hch; [| discriminate].
    pose proof (range_Events_outcome fuel (chan.closed ch) (chan.buf ch) reset
                  (main.env st)) as H.
    destruct (range_Events fuel (chan.closed ch) (chan.buf ch) reset (main.env st))
      as [r | msg | |]; cbn [bind]; try discriminate.
    intros E. injection E as <- <-. cbn.
    split; [reflexivity |]. split; [split; [reflexivity | exact H] |].
    eexists. reflexivity.
  - destruct (extension.NextEventResponse.EventType_ (fst next) =? extension.Shutdown)%string;
      intros H; injection H as <- <-;
      destruct (Hsame st) as (H1 & H2 & H3); cbn; repeat split; assumption.
Qed.

(** X15. Events that stand in the queue behind the [RuntimeDone] of one
    invocation are taken by the turn of the next [Invoke]: their lines open
    the buffer that turn flushes, before the END and REPORT lines of its own
    [RuntimeDone]. *)
Theorem late_events_join_next_invocation (fuel : nat)
  (res1 res2 : extension.NextEventResponse.t) (st st1 : main.State)
  (ch : chan.t Event) (pre mid post : list Event) (e1 e2 : Event)
  (v1 v2 : server.PlatformRuntimeDone.t float64) :
  extension.NextEventResponse.EventType_ res1 = extension.Invoke ->
  extension.NextEventResponse.EventType_ res2 = extension.Invoke ->
  server.Events (main.globals st) = Some ch ->
  chan.buf ch = pre ++ e1 :: mid ++ e2 :: post ->
  no_RuntimeDone pre ->
  no_RuntimeDone mid ->
  server.Event.Record' e1 = server.RuntimeDone v1 ->
  server.Event.Record' e2 = server.RuntimeDone v2 ->
  turn fuel false (res1, None) st = Done (st1, main.Again) ->
  exists (l' : main.Locals) (put : cloudwatchlogs.PutLogEventsInput.t) (w1 : W),
    flush_input v2 (accumulated mid reset) (main.env st1) = (l', put, w1)
    /\ notions.Messages put = lines_of mid ++ [END_line v2; REPORT_line v2]
    /\ turn fuel false (res2, None) st1 =
       (r <- put_loop fuel put (main.logGroupName l') w1 ;;
        Done ({| main.globals :=
                   {| server.httpServer := server.httpServer (main.globals st);
                      server.Events :=
                        Some {| chan.closed := chan.closed ch; chan.buf := post |} |};
                 main.vars := l';
                 main.env := fst r;
                 main.trace := main.trace st1 ++ snd r |},
              main.Again)).
Proof.
  intros H1 H2 Hch Hbuf Hpre Hmid He1 He2 Hturn.
  destruct (flush_input v1 (accumulated pre reset) (main.env st)) as [[l1 put1] w1] eqn:F1.
  rewrite (turn_Invoke_at_RuntimeDone fuel res1 st ch pre (mid ++ e2 :: post) e1 v1
             l1 put1 w1 H1 Hch Hbuf Hpre He1 F1) in Hturn.
  destruct (put_loop fuel put1 (main.logGroupName l1) w1) as [[wa csa] | | |];
    try discriminate Hturn.
  cbn [bind fst snd] in Hturn. injection Hturn as <-.
  destruct (flush_input v2 (accumulated mid reset) wa) as [[l2 put2] w2] eqn:F2.
  exists l2, put2, w2. cbn [main.env]. split; [exact F2 |].
  destruct (flush_input_spec _ _ _ _ _ _ _ _ _ F2) as (Hl2 & HM & _).
  split.
  { rewrite HM, Hl2. cbn [main.buffer]. rewrite accumulated_lines. reflexivity. }
  erewrite turn_Invoke_at_RuntimeDone
    with (ch := {| chan.closed := chan.closed ch; chan.buf := mid ++ e2 :: post |})
         (pre := mid) (post := post) (evt := e2) (v := v2);
    [reflexivity | exact H2 | reflexivity | reflexivity | exact Hmid | exact He2 | exact F2].
Qed.



Lemma put_loop_retries (fuel : nat) (put : cloudwatchlogs.PutLogEventsInput.t)
  (g : string) :
  forall (w w' : W) (cs : list main.Call),
    put_loop fuel put g w = Done (w', cs) ->
    exists k : nat,
      cs = flow.retries k put
             {| cloudwatchlogs.CreateLogGroupInput.LogGroupName := g |}
             {| cloudwatchlogs.CreateLogStreamInput.LogGroupName := g;
                cloudwatchlogs.CreateLogStreamInput.LogStreamName := streamName |}.
Proof.
  induction fuel as [| fuel IH]; intros w w' cs; [discriminate |].
  cbn [main.put_loop].
  destruct (cloudwatchlogs.PutLogEvents put w) as [w1 err].
  destruct (main.is_ResourceNotFound err).
  - destruct (cloudwatchlogs.CreateLogGroup _ w1) as [w2 eg].
    destruct (cloudwatchlogs.CreateLogStream _ w2) as [w3 es].
    destruct (put_loop fuel put g w3) as [[w4 cs4] | | |] eqn:E; try discriminate.
    cbn [bind fst snd]. intros H. injection H as <- <-.
    destruct (IH w3 w4 cs4 E) as (k & ->). exists (S k). reflexivity.
  - intros H. injection H as <- <-. exists O. reflexivity.
Qed.

Lemma range_Events_calls (fuel : nat) (closed : bool) (q : list Event) :
  forall (l : main.Locals) (w : W) (r : main.Ranged),
    range_Events fuel closed q l w = Done r ->
    main.calls r = []
    \/ exists (k : nat) (put : cloudwatchlogs.PutLogEventsInput.t),
         cloudwatchlogs.PutLogEventsInput.LogStreamName put = streamName
         /\ main.calls r =
            flow.retries k put
              {| cloudwatchlogs.CreateLogGroupInput.LogGroupName :=
                   cloudwatchlogs.PutLogEventsInput.LogGroupName put |}
              {| cloudwatchlogs.CreateLogStreamInput.LogGroupName :=
                   cloudwatchlogs.PutLogEventsInput.LogGroupName put;
                 cloudwatchlogs.CreateLogStreamInput.LogStreamName := streamName |}.
Proof.
  induction q as [| evt q IH]; intros l w r.
  - cbn [main.range_Events]. destruct closed; [| discriminate].
    intros H. injection H as <-. left. reflexivity.
  - cbn [main.range_Events].
    destruct (server.Event.Record' evt) as [v | v | v | v | v]; try apply IH.
    unfold main.case_PlatformRuntimeDone.
    destruct (flush_input v l w) as [[l' put] w1] eqn:F.
    destruct (flush_input_spec _ _ _ _ _ _ _ _ _ F) as (Hl' & _ & HG & HS).
    destruct (put_loop fuel put (main.logGroupName l') w1) as [[w2 cs] | | |] eqn:E;
      try discriminate.
    cbn [bind fst snd]. intros H. injection H as <-. cbn [main.calls].
    destruct (put_loop_retries _ _ _ _ _ _ E) as (k & ->).
    right. exists k, put. split; [exact HS |].
    replace (main.logGroupName l')
      with (cloudwatchlogs.PutLogEventsInput.LogGroupName put)
      by (rewrite HG, Hl'; reflexivity).
    reflexivity.
Qed.

(** X24. A turn flushes at most once: the calls it makes on the log store
    are none, or the rounds of one retry loop - every put with the same
    input, for the stream of the process, and every creation for the group
    and the stream of that input. *)
Theorem turn_flushes_at_most_once (fuel : nat) (done : bool)
  (next : extension.NextEventResponse.t * option error)
  (st st' : main.State) (c : main.Control) :
  turn fuel done next st = Done (st', c) ->
  main.trace st' = main.trace st
  \/ exists (k : nat) (put : cloudwatchlogs.PutLogEventsInput.t),
       cloudwatchlogs.PutLogEventsInput.LogStreamName put = streamName
       /\ main.trace st' =
          main.trace st
          ++ flow.retries k put
               {| cloudwatchlogs.CreateLogGroupInput.LogGroupName :=
                    cloudwatchlogs.PutLogEventsInput.LogGroupName put |}
               {| cloudwatchlogs.CreateLogStreamInput.LogGroupName :=
                    cloudwatchlogs.PutLogEventsInput.LogGroupName put;
                  cloudwatchlogs.CreateLogStreamInput.LogStreamName := streamName |}.
Proof.
  unfold main.turn. destruct done.
  { intros H. injection H as <- <-. left. reflexivity. }
  destruct (snd next).
  { intros H. injection H as <- <-. left. reflexivity. }
  cbn [main.globals main.env main.trace].
  destruct (extension.NextEventResponse.EventType_ (fst next) =? extension.Invoke)%string.
  - destruct (server.Events (main.globals st)) as [ch |]; [| discriminate].
    destruct (range_Events fuel (chan.closed ch) (chan.buf ch) reset (main.env st))
      as [r | msg | |] eqn:E; cbn [bind]; try discriminate.
    intros H. injection H as <- <-. cbn [main.trace].
    destruct (range_Events_calls _ _ _ _ _ _ E) as [-> | (k & put & HS & ->)].
    + left. apply app_nil_r.
    + right. exists k, put. split; [exact HS | reflexivity].
  - destruct (extension.NextEventResponse.EventType_ (fst next) =? extension.Shutdown)%string;
      intros H; injection H as <- <-; left; reflexivity.
Qed.

End MainMore.

(** ** The calls on the Extensions API *)

Lemma lookup_store (k k' : string) (vs : list string) (h : http.Header) :
  http.lookup k' (http.store k vs h) =
  if (k' =? k)%string then Some vs else http.lookup k' h.
Proof.
  induction h as [| [k0 vs0] h IH]; simpl.
  - reflexivity.
  - destruct (String.eqb_spec k k0) as [-> | Hk]; simpl.
    + destruct (String.eqb_spec k' k0); reflexivity.
    + destruct (String.eqb_spec k' k0) as [-> | Hk'].
      * destruct (String.eqb_spec k0 k) as [-> | _]; [contradiction Hk |]; reflexivity.
      * exact IH.
Qed.

(** [Get] after [Set]: the value set, for a name that has the canonical
    form of the name set; what was there before, for another. *)
Lemma Get_Set (h : http.Header) (key key' value : string) :
  http.Get (http.Set_ h key value) key' =
  if (http.CanonicalMIMEHeaderKey key' =? http.CanonicalMIMEHeaderKey key)%string
  then value else http.Get h key'.
Proof.
  unfold http.Get, http.Set_. rewrite lookup_store.
  destruct (http.CanonicalMIMEHeaderKey key' =? http.CanonicalMIMEHeaderKey key)%string;
    reflexivity.
Qed.

Section ClientProperties.
Context {W : Type} {transport : http.Client W}.
Context {U_register : json.Unmarshal client.RegisterResponse.t}
        {U_next : json.Unmarshal extension.NextEventResponse.t}
        {U_status : json.Unmarshal client.StatusResponse.t}.
Variable url_Parse : string -> option error.
Variable baseUrl : string.

Local Open Scope list_scope.

Local Abbreviation Register := (client.Register url_Parse baseUrl).
Local Abbreviation EventNext := (client.EventNext url_Parse baseUrl).
Local Abbreviation InitError := (client.InitError url_Parse baseUrl).
Local Abbreviation ExitError := (client.ExitError url_Parse baseUrl).

Local Ltac run_call :=
  unfold client.Register, client.EventNext, client.InitError, client.ExitError,
    http.NewRequest;
  destruct (url_Parse _) as [e0 |]; cbn [client.err client.ret client.extensionID
                                          client.effects client.world];
  [| match goal with
     | |- context [http.Do ?req ?w] =>
         let res := fresh "res" in
         let e1 := fresh "e1" in
         let w1 := fresh "w1" in
         let D := fresh "D" in
         destruct (http.Do req w) as [[res | e1] w1] eqn:D;
         [destruct (Z.eqb_spec (http.Response.StatusCode res) 200);
          cbn [negb];
          [destruct (http.Response.Body res) as [bytes [e2 |]] eqn:B;
           [| match goal with
              | |- context [json.unmarshal bytes] =>
                  let U := fresh "U" in
                  destruct (json.unmarshal bytes) as [out [e3 |]] eqn:U
              | _ => idtac
              end]
          |]
         |]
     end];
  cbn [client.err client.ret client.extensionID client.effects client.world fst snd].

Lemma Register_sets_identifier_shape (id : string) (w : W) :
  let r := Register id w in
  match client.err r with
  | None => client.extensionID r = client.ret r
  | Some _ => client.extensionID r = id
  end.
Proof.
  cbv zeta. unfold client.Register, http.NewRequest.
  destruct (url_Parse _) as [e0 |]; [reflexivity |].
  match goal with |- context [http.Do ?req w] =>
    destruct (http.Do req w) as [[res | e1] w1] end; [| reflexivity].
  destruct (negb _); [reflexivity |].
  destruct (http.Response.Body res) as [bytes [e2 |]]; [reflexivity |].
  destruct (snd (json.unmarshal bytes)) as [e3 |]; reflexivity.
Qed.


(** X18. A response of status 200 with a body that decodes and without the
    identifier header registers all the same: [Register] returns the empty
    string as the identifier, with no error. *)
Theorem Register_without_identifier_header (id bytes : string) (w w1 : W)
  (res : http.Response.t) :
  url_Parse (baseUrl ++ "/register")%string = None ->
  (forall req, http.Do req w = (inl res, w1)) ->
  http.Response.StatusCode res = 200%Z ->
  http.Response.Body res = (bytes, None) ->
  snd (json.unmarshal bytes : client.RegisterResponse.t * option error) = None ->
  http.lookup "Lambda-Extension-Identifier" (http.Response.Header_ res) = None ->
  client.err (Register id w) = None
  /\ client.ret (Register id w) = EmptyString
  /\ client.extensionID (Register id w) = EmptyString.
Proof.
  intros Hurl Hdo Hok Hbody Hdec Hmiss.
  unfold client.Register, http.NewRequest. rewrite Hurl, Hdo, Hok, Hbody, Hdec.
  cbn [negb Z.eqb Pos.eqb client.err client.ret client.extensionID].
  unfold http.Get.
  change (http.CanonicalMIMEHeaderKey client.extensionIdentiferHeader)
    with "Lambda-Extension-Identifier"%string.
  rewrite Hmiss. repeat split.
Qed.

(** X19. The request of [EventNext] is a GET of the next-event address that
    carries, as the identifier header, the identifier the call was made
    with; those of [InitError] and [ExitError] are POSTs of their addresses
    that carry the identifier and, as the error type header, the error type
    given; none has a body. *)
Theorem requests_carry_identifier (id errorType : string) (w : W) (req : http.Request.t) :
  (In (client.Sent req) (client.effects (EventNext id w)) ->
   req = {| http.Request.Method := "GET";
            http.Request.URL := (baseUrl ++ "/event/next")%string;
            http.Request.Header_ := [("Lambda-Extension-Identifier"%string, [id])];
            http.Request.Body := None |})
  /\ (In (client.Sent req) (client.effects (InitError errorType id w)) ->
      req = {| http.Request.Method := "POST";
               http.Request.URL := (baseUrl ++ "/init/error")%string;
               http.Request.Header_ :=
                 [("Lambda-Extension-Identifier"%string, [id]);
                  ("Lambda-Extension-Function-Error-Type"%string, [errorType])];
               http.Request.Body := None |})
  /\ (In (client.Sent req) (client.effects (ExitError errorType id w)) ->
      req = {| http.Request.Method := "POST";
               http.Request.URL := (baseUrl ++ "/exit/error")%string;
               http.Request.Header_ :=
                 [("Lambda-Extension-Identifier"%string, [id]);
                  ("Lambda-Extension-Function-Error-Type"%string, [errorType])];
               http.Request.Body := None |}).
Proof.
  split; [| split]; run_call; cbn [In];
    intros H; repeat (destruct H as [H | H]); try discriminate H; try contradiction H;
    injection H as <-; reflexivity.
Qed.

Lemma discipline_nil (w : W) : flow.one_request_closed_iff_ok w [].
Proof.
  split; [cbn; lia |]. intros req res w1 [].
Qed.

Lemma discipline_one (w : W) (req0 : http.Request.t) (rest : list client.Effect) :
  filter flow.is_Sent rest = [] ->
  (In client.BodyClosed rest <->
   exists res w1, http.Do req0 w = (inl res, w1)
                  /\ http.Response.StatusCode res = 200%Z) ->
  flow.one_request_closed_iff_ok w (client.Sent req0 :: rest).
Proof.
  intros Hrest Hclosed. split.
  - cbn [filter flow.is_Sent length]. rewrite Hrest. cbn. lia.
  - intros req res w1 Hin Hdo.
    assert (req = req0) as ->.
    { destruct Hin as [Hin | Hin]; [injection Hin as <-; reflexivity |].
      assert (In (client.Sent req) (filter flow.is_Sent rest)) as Hf
          by (apply filter_In; split; [exact Hin | reflexivity]).
      rewrite Hrest in Hf. destruct Hf. }
    split.
    + intros [Hin' | Hin']; [discriminate Hin' |].
      apply Hclosed in Hin'. destruct Hin' as (res' & w1' & Hdo' & Hok).
      rewrite Hdo in Hdo'. injection Hdo' as -> _. exact Hok.
    + intros Hok. right. apply Hclosed. exists res, w1. split; assumption.
Qed.

Local Ltac discipline :=
  run_call;
  [apply discipline_nil | apply discipline_one; [reflexivity |] ..];
  cbn [In];
  (split;
   [intros H; repeat (destruct H as [H | H]); try discriminate H; try contradiction H;
    eexists; eexists; split; eassumption
   | intros (res' & w1' & D' & Hok');
     match goal with
     | D : http.Do ?r ?w0 = _, D'' : http.Do ?r ?w0 = (inl res', w1') |- _ =>
         rewrite D in D''
     end;
     first [discriminate D'
           | injection D' as <- <-; first [contradiction | left; reflexivity]]]).

(** X20. Each of the four calls sends at most one request, and closes the
    body of the response exactly when its status code is 200: the body of a
    response with another status is left open. *)
Theorem calls_close_body_iff_ok (id errorType : string) (w : W) :
  flow.one_request_closed_iff_ok w (client.effects (Register id w))
  /\ flow.one_request_closed_iff_ok w (client.effects (EventNext id w))
  /\ flow.one_request_closed_iff_ok w (client.effects (InitError errorType id w))
  /\ flow.one_request_closed_iff_ok w (client.effects (ExitError errorType id w)).
Proof.
  split; [| split; [| split]]; discipline.
Qed.

(** X21. [EventNext] returns either a response and no error, or no
    response and an error; the response it returns is what the body of a
    response of status 200, read whole, decodes to without error. *)
Theorem EventNext_response_xor_error (id : string) (w : W) :
  let r := EventNext id w in
  match client.ret r, client.err r with
  | Some out, None =>
      exists req res bytes,
        http.Do req w = (inl res, client.world r)
        /\ http.Response.StatusCode res = 200%Z
        /\ http.Response.Body res = (bytes, None)
        /\ json.unmarshal bytes = (out, None)
  | None, Some _ => True
  | _, _ => False
  end.
Proof.
  cbv zeta. run_call; try exact I.
  eexists. exists res, bytes. repeat split; eassumption.
Qed.

(** X22. The poll that follows a registration without error carries, as its
    identifier header, the identifier that registration returned. *)
Theorem poll_after_Register_carries_its_identifier (id0 : string) (w : W)
  (req : http.Request.t) :
  client.err (Register id0 w) = None ->
  In (client.Sent req)
     (client.effects (EventNext (client.extensionID (Register id0 w))
                                (client.world (Register id0 w)))) ->
  http.Get (http.Request.Header_ req) client.extensionIdentiferHeader
  = client.ret (Register id0 w).
Proof.
  intros Hreg.
  assert (Hid : client.extensionID (Register id0 w) = client.ret (Register id0 w)).
  { pose proof (Register_sets_identifier_shape id0 w) as H. cbv zeta in H.
    rewrite Hreg in H. exact H. }
  rewrite Hid. generalize (client.ret (Register id0 w)) (client.world (Register id0 w)).
  intros id w'. run_call; cbn [In];
    intros H; repeat (destruct H as [H | H]); try discriminate H; try contradiction H;
    injection H as <-; reflexivity.
Qed.

End ClientProperties.

(** ** The poll and the loop together *)

Section PollProperties.
Context {float64 : Type}.
Variable FormatFloat : float64 -> string.
Context {U_action : json.Unmarshal main.Action.t}
        {U_logSplit : json.Unmarshal main.LogSplitAction.t}.
Context {W : Type} {client : cloudwatchlogs.Client W} {clock : time.Clock W}.
Context {H : Type} {transport : http.Client H}
        {U_next : json.Unmarshal extension.NextEventResponse.t}.
Variable Getenv : string -> string.
Variable streamName : string.
Variable url_Parse : string -> option error.
Variable baseUrl : string.

(** X23. A poll answered with a status other than 200 makes [EventNext]
    return the error that names the status, and on that error the loop
    returns at once: nothing is taken from the queue, no call is made on
    the log store, and the buffer and the group are not reset. *)
Theorem refused_poll_ends_loop (fuel : nat) (id : string) (h h1 : H)
  (res : http.Response.t) (any : extension.NextEventResponse.t) (st : main.State) :
  url_Parse (baseUrl ++ "/event/next")%string = None ->
  http.Do {| http.Request.Method := "GET";
             http.Request.URL := (baseUrl ++ "/event/next")%string;
             http.Request.Header_ := [("Lambda-Extension-Identifier"%string, [id])];
             http.Request.Body := None |} h = (inl res, h1) ->
  http.Response.StatusCode res <> 200%Z ->
  client.err (client.EventNext url_Parse baseUrl id h)
  = Some (OtherError ("request failed with status " ++ http.Response.Status res))
  /\ main.turn FormatFloat Getenv streamName fuel false
       (any, client.err (client.EventNext url_Parse baseUrl id h)) st
     = Done (st, main.Return_).
Proof.
  intros Hurl Hdo Hko.
  assert (E : client.err (client.EventNext url_Parse baseUrl id h)
              = Some (OtherError ("request failed with status "
                                  ++ http.Response.Status res))).
  { unfold client.EventNext, http.NewRequest. rewrite Hurl.
    change (http.Set_ _ client.extensionIdentiferHeader id)
      with [("Lambda-Extension-Identifier"%string, [id])].
    cbn [http.Request.Method http.Request.URL http.Request.Body].
    rewrite Hdo.
    destruct (Z.eqb_spec (http.Response.StatusCode res) 200) as [? | _];
      [contradiction | reflexivity]. }
  split; [exact E |]. rewrite E. reflexivity.
Qed.

End PollProperties.

(** ** The further properties at work *)

Import session.

Lemma closed_queue_batch_witness :
  server.range_slice example.slice session.closed_hstate = Panic "send on closed channel"
  /\ server.range_slice session.ignored_envelopes session.closed_hstate
     = Done {| server.events := Some {| chan.closed := true; chan.buf := [] |};
               server.log := ["unknown event type platform.logsDropped {}"%string] |}.
Proof.
  split.
  - apply (closed_queue_batch example.slice session.closed_hstate
             {| chan.closed := true; chan.buf := [] |} eq_refl eq_refl).
  - apply (closed_queue_batch session.ignored_envelopes session.closed_hstate
             {| chan.closed := true; chan.buf := [] |} eq_refl eq_refl).
Defined.

Lemma no_directive_flushes_to_empty_group_witness :
  exists (l' : main.Locals) (put : cloudwatchlogs.PutLogEventsInput.t) (w1 : cloud.t),
    cloudwatchlogs.PutLogEventsInput.LogGroupName put = EmptyString
    /\ main.turn FormatFloat example.Getenv example.streamName 2 false
         (example.response "INVOKE" "r1", None)
         (example.state0 ([example.fn "t1" "hello"]
                          ++ example.done "t2" example.done_r1 :: [example.fn "t3" "late"]))
       = (r <- main.put_loop example.streamName 2 put EmptyString w1 ;;
          Done ({| main.globals :=
                     {| server.httpServer := server.httpServer example.globals0;
                        server.Events :=
                          Some {| chan.closed := false;
                                  chan.buf := [example.fn "t3" "late"] |} |};
                   main.vars := l';
                   main.env := fst r;
                   main.trace := [] ++ snd r |},
                main.Again)).
Proof.
  destruct (no_directive_flushes_to_empty_group FormatFloat example.Getenv
              example.streamName 2 (example.response "INVOKE" "r1")
              (example.state0 ([example.fn "t1" "hello"]
                               ++ example.done "t2" example.done_r1
                                  :: [example.fn "t3" "late"]))
              {| chan.closed := false;
                 chan.buf := [example.fn "t1" "hello"]
                             ++ example.done "t2" example.done_r1
                                :: [example.fn "t3" "late"] |}
              [example.fn "t1" "hello"] [example.fn "t3" "late"]
              (example.done "t2" example.done_r1) example.done_r1
              eq_refl eq_refl eq_refl eq_refl eq_refl)
    as (l' & put & w1 & _ & Hg & Hturn).
  - intros e [<- | []]. reflexivity.
  - exists l', put, w1. split; [exact Hg | exact Hturn].
Defined.

Lemma turn_forgets_previous_locals_witness :
  main.turn FormatFloat example.Getenv example.streamName 2 false
    (example.response "INVOKE" "r1", None)
    (example.state0 [example.done "t2" example.done_r1])
  = main.turn FormatFloat example.Getenv example.streamName 2 false
      (example.response "INVOKE" "r1", None)
      {| main.globals := main.globals (example.state0 [example.done "t2" example.done_r1]);
         main.vars := example.locals1;
         main.env := example.world0;
         main.trace := [] |}.
Proof.
  apply (turn_forgets_previous_locals FormatFloat example.Getenv example.streamName 2
           (example.response "INVOKE" "r1", None)
           (example.state0 [example.done "t2" example.done_r1]) example.locals1).
  reflexivity.
Defined.

Lemma put_loop_calls_shape_witness :
  exists k : nat,
    (k < 2)%nat
    /\ [main.CallPutLogEvents example.put1;
        main.CallCreateLogGroup
          {| cloudwatchlogs.CreateLogGroupInput.LogGroupName := "/my/group" |};
        main.CallCreateLogStream
          {| cloudwatchlogs.CreateLogStreamInput.LogGroupName := "/my/group";
             cloudwatchlogs.CreateLogStreamInput.LogStreamName := example.streamName |};
        main.CallPutLogEvents example.put1]
       = flow.retries k example.put1
           {| cloudwatchlogs.CreateLogGroupInput.LogGroupName := "/my/group" |}
           {| cloudwatchlogs.CreateLogStreamInput.LogGroupName := "/my/group";
              cloudwatchlogs.CreateLogStreamInput.LogStreamName := example.streamName |}.
Proof.
  eapply (put_loop_calls_shape example.streamName 2 example.put1 "/my/group"
            example.world1).
  vm_compute. reflexivity.
Defined.

Lemma put_loop_spins_while_missing_witness :
  main.put_loop (client := session.readonly) example.streamName 7 example.put1
    "/my/group" example.world0 = OutOfFuel.
Proof.
  apply (put_loop_spins_while_missing (client := session.readonly) example.streamName
           (fun w => cloud.groups w = []) example.put1 "/my/group").
  - intros w Hw. cbn. unfold cloud.PutLogEvents. rewrite Hw. cbn.
    split; [reflexivity | exact Hw].
  - intros w input Hw. exact Hw.
  - intros w input Hw. exact Hw.
  - reflexivity.
Defined.


Lemma no_RuntimeDone_no_flush_witness :
  main.turn FormatFloat example.Getenv example.streamName 2 false
    (example.response "INVOKE" "r1", None)
    {| main.globals :=
         {| server.httpServer := None;
            server.Events :=
              Some {| chan.closed := true; chan.buf := [example.fn "t1" "hello"] |} |};
       main.vars := example.locals0;
       main.env := example.world0;
       main.trace := [] |}
  = Done ({| main.globals :=
               {| server.httpServer := None;
                  server.Events := Some {| chan.closed := true; chan.buf := [] |} |};
             main.vars := {| main.buffer := ["hello"%string];
                             main.logGroupName := EmptyString |};
             main.env := example.world0;
             main.trace := [] |},
          main.Again).
Proof.
  apply (no_RuntimeDone_no_flush FormatFloat example.Getenv example.streamName 2
           (example.response "INVOKE" "r1")
           {| main.globals :=
                {| server.httpServer := None;
                   server.Events :=
                     Some {| chan.closed := true;
                             chan.buf := [example.fn "t1" "hello"] |} |};
              main.vars := example.locals0;
              main.env := example.world0;
              main.trace := [] |}
           {| chan.closed := true; chan.buf := [example.fn "t1" "hello"] |}
           eq_refl eq_refl eq_refl).
Defined.

Lemma turn_keeps_listener_and_takes_from_front_witness :
  match main.turn FormatFloat example.Getenv example.streamName 2 false
          (example.response "INVOKE" "r1", None)
          (example.state0 ([example.fn "t1" "hello"]
                           ++ example.done "t2" example.done_r1
                              :: [example.fn "t3" "late"])) with
  | Done (st', _) =>
      server.httpServer (main.globals st') = server.httpServer example.globals0
      /\ option_map (@chan.buf _) (server.Events (main.globals st'))
         = Some [example.fn "t3" "late"]
  | _ => False
  end.
Proof.
  destruct (main.turn FormatFloat example.Getenv example.streamName 2 false
              (example.response "INVOKE" "r1", None)
              (example.state0 ([example.fn "t1" "hello"]
                               ++ example.done "t2" example.done_r1
                                  :: [example.fn "t3" "late"])))
    as [[st' c] | msg | |] eqn:E;
    [| vm_compute in E; discriminate E ..].
  destruct (turn_keeps_listener_and_takes_from_front FormatFloat example.Getenv
              example.streamName 2 false (example.response "INVOKE" "r1", None) _ st' c E)
    as (Hsrv & _ & _).
  split; [exact Hsrv |].
  vm_compute in E. injection E as <- _. reflexivity.
Defined.

Lemma late_events_join_next_invocation_witness :
  exists (st1 : main.State) (l' : main.Locals)
         (put : cloudwatchlogs.PutLogEventsInput.t) (w1 : cloud.t),
    main.turn FormatFloat example.Getenv example.streamName 2 false
      (example.response "INVOKE" "r1", None)
      (example.state0 ([example.fn "t1" "hello"]
                       ++ example.done "t2" example.done_r1
                          :: [example.fn "t3" "late"]
                             ++ example.done "t4" example.done_r2 :: []))
    = Done (st1, main.Again)
    /\ main.flush_input FormatFloat example.Getenv example.streamName example.done_r2
         (notions.accumulated FormatFloat [example.fn "t3" "late"] example.locals0)
         (main.env st1) = (l', put, w1)
    /\ notions.Messages put
       = ["late"%string; main.END_line FormatFloat example.done_r2;
          main.REPORT_line FormatFloat example.Getenv example.done_r2].
Proof.
  destruct (main.turn FormatFloat example.Getenv example.streamName 2 false
              (example.response "INVOKE" "r1", None)
              (example.state0 ([example.fn "t1" "hello"]
                               ++ example.done "t2" example.done_r1
                                  :: [example.fn "t3" "late"]
                                     ++ example.done "t4" example.done_r2 :: [])))
    as [[st1 c] | msg | |] eqn:E;
    [| vm_compute in E; discriminate E ..].
  assert (c = main.Again) as -> by (vm_compute in E; injection E as _ <-; reflexivity).
  destruct (late_events_join_next_invocation FormatFloat example.Getenv
              example.streamName 2
              (example.response "INVOKE" "r1") (example.response "INVOKE" "r2")
              (example.state0 ([example.fn "t1" "hello"]
                               ++ example.done "t2" example.done_r1
                                  :: [example.fn "t3" "late"]
                                     ++ example.done "t4" example.done_r2 :: []))
              st1
              {| chan.closed := false;
                 chan.buf := [example.fn "t1" "hello"]
                             ++ example.done "t2" example.done_r1
                                :: [example.fn "t3" "late"]
                                   ++ example.done "t4" example.done_r2 :: [] |}
              [example.fn "t1" "hello"] [example.fn "t3" "late"] []
              (example.done "t2" example.done_r1) (example.done "t4" example.done_r2)
              example.done_r1 example.done_r2
              eq_refl eq_refl eq_refl eq_refl eq_refl eq_refl eq_refl eq_refl E)
    as (l' & put & w1 & F & HM & _).
  exists st1, l', put, w1. split; [reflexivity |]. split; [exact F | exact HM].
Defined.


Lemma Register_without_identifier_header_witness :
  client.err (client.Register session.url_Parse session.baseUrl "stale"
                [session.ok [] (example.dq "{'functionName':'f'}")]) = None
  /\ client.ret (client.Register session.url_Parse session.baseUrl "stale"
                   [session.ok [] (example.dq "{'functionName':'f'}")]) = EmptyString
  /\ client.extensionID (client.Register session.url_Parse session.baseUrl "stale"
                           [session.ok [] (example.dq "{'functionName':'f'}")])
     = EmptyString.
Proof.
  apply (Register_without_identifier_header session.url_Parse session.baseUrl "stale"
           (example.dq "{'functionName':'f'}")
           [session.ok [] (example.dq "{'functionName':'f'}")] []
           {| http.Response.Status := "200 OK"; http.Response.StatusCode := 200;
              http.Response.Header_ := [];
              http.Response.Body := (example.dq "{'functionName':'f'}", None) |});
    reflexivity.
Defined.

Lemma requests_carry_identifier_witness :
  http.Get
    (http.Request.Header_
       {| http.Request.Method := "GET";
          http.Request.URL := (session.baseUrl ++ "/event/next")%string;
          http.Request.Header_ := [("Lambda-Extension-Identifier"%string, ["abc123"%string])];
          http.Request.Body := None |})
    "lambda-extension-identifier" = "abc123"%string
  /\ {| http.Request.Method := "GET";
        http.Request.URL := (session.baseUrl ++ "/event/next")%string;
        http.Request.Header_ := [("Lambda-Extension-Identifier"%string, ["abc123"%string])];
        http.Request.Body := None |}
     = {| http.Request.Method := "GET";
          http.Request.URL := (session.baseUrl ++ "/event/next")%string;
          http.Request.Header_ := [("Lambda-Extension-Identifier"%string, ["abc123"%string])];
          http.Request.Body := None |}.
Proof.
  split; [reflexivity |].
  apply (proj1 (requests_carry_identifier session.url_Parse session.baseUrl "abc123"
                  "Extension.Crash" [session.invoke_r1] _)).
  left. reflexivity.
Defined.

Lemma poll_after_Register_carries_its_identifier_witness :
  http.Get
    (http.Request.Header_
       {| http.Request.Method := "GET";
          http.Request.URL := (session.baseUrl ++ "/event/next")%string;
          http.Request.Header_ := [("Lambda-Extension-Identifier"%string, ["abc123"%string])];
          http.Request.Body := None |})
    client.extensionIdentiferHeader
  = client.ret (client.Register session.url_Parse session.baseUrl EmptyString
                  [session.registered; session.invoke_r1])
  /\ client.ret (client.Register session.url_Parse session.baseUrl EmptyString
                   [session.registered; session.invoke_r1]) = "abc123"%string.
Proof.
  split; [| reflexivity].
  apply (poll_after_Register_carries_its_identifier session.url_Parse session.baseUrl
           EmptyString [session.registered; session.invoke_r1]);
    [reflexivity | left; reflexivity].
Defined.

Lemma refused_poll_ends_loop_witness :
  client.err (client.EventNext session.url_Parse session.baseUrl "abc123"
                [session.forbidden])
  = Some (OtherError "request failed with status 403 Forbidden")
  /\ main.turn FormatFloat example.Getenv example.streamName 2 false
       (example.response "INVOKE" "r1",
        client.err (client.EventNext session.url_Parse session.baseUrl "abc123"
                      [session.forbidden]))
       (example.state0 [example.done "t2" example.done_r1])
     = Done (example.state0 [example.done "t2" example.done_r1], main.Return_).
Proof.
  apply (refused_poll_ends_loop FormatFloat example.Getenv example.streamName
           session.url_Parse session.baseUrl 2 "abc123" [session.forbidden] []
           {| http.Response.Status := "403 Forbidden"; http.Response.StatusCode := 403;
              http.Response.Header_ := []; http.Response.Body := (EmptyString, None) |}
           (example.response "INVOKE" "r1")
           (example.state0 [example.done "t2" example.done_r1]));
    [reflexivity | reflexivity | discriminate].
Defined.

Lemma turn_flushes_at_most_once_witness :
  match main.turn FormatFloat example.Getenv example.streamName 2 false
          (example.response "INVOKE" "r1", None)
          (example.state0 ([example.fn "t1" example.directive_line]
                           ++ example.done "t2" example.done_r1 :: [])) with
  | Done (st', _) =>
      exists (k : nat) (put : cloudwatchlogs.PutLogEventsInput.t),
        main.trace st' =
        flow.retries k put
          {| cloudwatchlogs.CreateLogGroupInput.LogGroupName :=
               cloudwatchlogs.PutLogEventsInput.LogGroupName put |}
          {| cloudwatchlogs.CreateLogStreamInput.LogGroupName :=
               cloudwatchlogs.PutLogEventsInput.LogGroupName put;
             cloudwatchlogs.CreateLogStreamInput.LogStreamName := example.streamName |}
  | _ => False
  end.
Proof.
  destruct (main.turn FormatFloat example.Getenv example.streamName 2 false
              (example.response "INVOKE" "r1", None)
              (example.state0 ([example.fn "t1" example.directive_line]
                               ++ example.done "t2" example.done_r1 :: [])))
    as [[st' c] | msg | |] eqn:E;
    [| vm_compute in E; discriminate E ..].
  destruct (turn_flushes_at_most_once FormatFloat example.Getenv example.streamName
              2 false (example.response "INVOKE" "r1", None)
              (example.state0 ([example.fn "t1" example.directive_line]
                               ++ example.done "t2" example.done_r1 :: []))
              st' c E)
    as [Hnone | (k & put & _ & Hcalls)].
  - vm_compute in E. injection E as <- _. discriminate Hnone.
  - exists k, put. exact Hcalls.
Defined.
